(** * IPL statistics chatbot: natural-language question -> SQL -> ranked text

    A shallow embedding of the two chatbot classes of the repository,
    [IPLStatsPostgresChatbot] (src/ipl_chatbot_postgres.py, the baseline) and
    [IPLStatsEnhancedChatbot] (src/ipl_chatbot_enhanced.py), of their
    callers (the endpoints of src/app_postgres.py, the command-line loop of
    [main], the chat page of src/streamlit_app.py) and of the refresh of the
    materialized views, followed by the properties of the [ask] pipeline and
    of the code around it.

    Modelling conventions.
    - A Python [str] is a [string]: the UTF-8 bytes of the text, a lone
      surrogate being held as the three bytes [surrogatepass] gives it.  A
      byte of an ASCII character never occurs inside the bytes of another
      character, so substring tests, [split] and [rstrip(';')] on bytes agree
      with the tests on code points.  [str.strip()] removes the whitespace of
      [str.isspace()], ASCII and beyond; [str.lower()] is the runtime's.
    - A Python call either returns or raises: [outcome].  [try ... except
      Exception] is [try_catch].
    - The hosted LLM, the database and the console are oracles of a [World];
      the list of SQL statements handed to [pd.read_sql] so far is the state
      threaded through [ask].
    - The methods of the two classes are embedded twice.  The modules
      [IPLStatsPostgresChatbotIO] and [IPLStatsEnhancedChatbotIO] hold them
      with every [print] they call, each of which may raise.  The modules
      [IPLStatsPostgresChatbot] and [IPLStatsEnhancedChatbot] hold them
      without their output: by [baseline_ask_accepted] and
      [enhanced_ask_accepted] that is what the methods do on a console that
      accepts every text. *)

From Stdlib Require Import String Ascii List Bool Arith ZArith Lia.
From Stdlib Require Import DecimalString SpecFloat.
Import ListNotations.

#[local] Open Scope list_scope.
#[local] Open Scope string_scope.

(** ** Python values that raise *)

(** The exception classes the modelled code can meet. *)
Inductive exn : Type :=
| IndexError
| KeyError (key : string)
| ValueError
| TypeError
| OverflowError
| AttributeError
| UnicodeEncodeError
| ExternalError (detail : string).

Inductive outcome (A : Type) : Type :=
| Ok (a : A)
| Raise (e : exn).
Arguments Ok {A} a.
Arguments Raise {A} e.

Definition obind {A B : Type} (m : outcome A) (k : A -> outcome B) : outcome B :=
  match m with
  | Ok a => k a
  | Raise e => Raise e
  end.

Declare Scope outcome_scope.
Delimit Scope outcome_scope with outcome.
Notation "'let?' x ':=' m 'in' k" := (obind m (fun x => k))
  (at level 10, x name, m at level 100, k at level 200) : outcome_scope.
#[local] Open Scope outcome_scope.

(** ** Python string operations *)

Module PyStr.

Definition dq : string := String (ascii_of_nat 34) EmptyString.
Definition nl : string := String (ascii_of_nat 10) EmptyString.
Definition qt (s : string) : string := dq ++ s ++ dq.

(** The characters [str.strip()] removes are those of [str.isspace()].
    In ASCII: tab to carriage return, the four separators 0x1c-0x1f, and
    the space. *)
Definition is_space (c : ascii) : bool :=
  let n := nat_of_ascii c in
  ((9 <=? n)%nat && (n <=? 13)%nat) || ((28 <=? n)%nat && (n <=? 32)%nat).

(** Beyond ASCII, in UTF-8: U+0085 and U+00A0 (0xC2 0x85, 0xC2 0xA0) ... *)
Definition is_space2 (a b : ascii) : bool :=
  let b := nat_of_ascii b in
  (nat_of_ascii a =? 194)%nat && ((b =? 133)%nat || (b =? 160)%nat).

(** ... U+1680 (0xE1 0x9A 0x80), U+2000 to U+200A, U+2028, U+2029 and
    U+202F (0xE2 0x80 and 0x80-0x8A, 0xA8, 0xA9, 0xAF), U+205F (0xE2 0x81
    0x9F) and U+3000 (0xE3 0x80 0x80). *)
Definition is_space3 (a b c : ascii) : bool :=
  let a := nat_of_ascii a in
  let b := nat_of_ascii b in
  let c := nat_of_ascii c in
  ((a =? 225)%nat && (b =? 154)%nat && (c =? 128)%nat)
  || ((a =? 226)%nat && (b =? 128)%nat
      && (((128 <=? c)%nat && (c <=? 138)%nat)
          || (c =? 168)%nat || (c =? 169)%nat || (c =? 175)%nat))
  || ((a =? 226)%nat && (b =? 129)%nat && (c =? 159)%nat)
  || ((a =? 227)%nat && (b =? 128)%nat && (c =? 128)%nat).

(** What follows the whitespace character [s] starts with, if it starts
    with one. *)
Definition leading_space (s : string) : option string :=
  match s with
  | String a s1 =>
      if is_space a then Some s1
      else
        match s1 with
        | String b s2 =>
            if is_space2 a b then Some s2
            else
              match s2 with
              | String c s3 => if is_space3 a b c then Some s3 else None
              | EmptyString => None
              end
        | EmptyString => None
        end
  | EmptyString => None
  end.

Definition is_semicolon (c : ascii) : bool := Ascii.eqb c ";"%char.

Definition lower_char (c : ascii) : ascii :=
  let n := nat_of_ascii c in
  if (65 <=? n)%nat && (n <=? 90)%nat then ascii_of_nat (n + 32) else c.

(** [str.lower()] on ASCII text: the letters A to Z become a to z.  What
    [str.lower()] does to other characters is the runtime's (see
    [str_lower] below). *)
Fixpoint lower (s : string) : string :=
  match s with
  | EmptyString => EmptyString
  | String c s' => String (lower_char c) (lower s')
  end.

(** [s.isascii()] *)
Fixpoint is_ascii (s : string) : bool :=
  match s with
  | EmptyString => true
  | String c s' => (nat_of_ascii c <? 128)%nat && is_ascii s'
  end.

Definition is_empty (s : string) : bool :=
  match s with
  | EmptyString => true
  | String _ _ => false
  end.

Fixpoint lstrip_by (p : ascii -> bool) (s : string) : string :=
  match s with
  | EmptyString => EmptyString
  | String c s' => if p c then lstrip_by p s' else s
  end.

Fixpoint rstrip_by (p : ascii -> bool) (s : string) : string :=
  match s with
  | EmptyString => EmptyString
  | String c s' =>
      let r := rstrip_by p s' in
      if is_empty r && p c then EmptyString else String c r
  end.

(** [s.lstrip()]: the whitespace characters at the start go, one after
    the other. *)
Fixpoint lstrip (s : string) : string :=
  match s with
  | String a s1 =>
      if is_space a then lstrip s1
      else
        match s1 with
        | String b s2 =>
            if is_space2 a b then lstrip s2
            else
              match s2 with
              | String c s3 => if is_space3 a b c then lstrip s3 else s
              | EmptyString => s
              end
        | EmptyString => s
        end
  | EmptyString => EmptyString
  end.

(** [s.rstrip()]: a character stays unless whitespace is all that is left
    from it on.  (No whitespace character starts with a byte that continues
    another character.) *)
Fixpoint rstrip (s : string) : string :=
  match s with
  | EmptyString => EmptyString
  | String c s' => if is_empty (lstrip s) then EmptyString else String c (rstrip s')
  end.

(** [s.strip()] *)
Definition strip (s : string) : string := lstrip (rstrip s).

(** [s.rstrip(';')] *)
Definition rstrip_semicolons (s : string) : string := rstrip_by is_semicolon s.

(** [needle in hay] *)
Fixpoint contains (needle hay : string) : bool :=
  prefix needle hay ||
  match hay with
  | EmptyString => false
  | String _ hay' => contains needle hay'
  end.

(** [any(word in hay for word in words)] *)
Definition any_in (words : list string) (hay : string) : bool :=
  existsb (fun word => contains word hay) words.

(** [s.split(sep)] for a non-empty [sep]: the pieces between the
    occurrences of [sep], found left to right without overlap.  [skip]
    counts the characters of a separator still to be passed over. *)
Fixpoint split_go (sep : string) (skip : nat) (s : string) : list string :=
  match s with
  | EmptyString => [EmptyString]
  | String c s' =>
      match skip with
      | S k => split_go sep k s'
      | O =>
          if prefix sep s then EmptyString :: split_go sep (String.length sep - 1) s'
          else
            match split_go sep 0 s' with
            | piece :: pieces => String c piece :: pieces
            | [] => [String c EmptyString]
            end
      end
  end.

Definition split (sep s : string) : outcome (list string) :=
  if is_empty sep then Raise ValueError else Ok (split_go sep 0 s).

(** [l[i]] *)
Definition item {A : Type} (l : list A) (i : nat) : outcome A :=
  match nth_error l i with
  | Some a => Ok a
  | None => Raise IndexError
  end.

(** A byte that continues a character begun before it. *)
Definition is_continuation (c : ascii) : bool :=
  let n := nat_of_ascii c in (128 <=? n)%nat && (n <? 192)%nat.

(** [s[:n]]: the first [n] characters. *)
Fixpoint slice_to (n : nat) (s : string) : string :=
  match s with
  | EmptyString => EmptyString
  | String c s' =>
      if is_continuation c then String c (slice_to n s')
      else
        match n with
        | O => EmptyString
        | S k => String c (slice_to k s')
        end
  end.

(** A [str] may hold a lone surrogate (U+D800 to U+DFFF), which UTF-8 does
    not encode; such a character is held as the three bytes 0xED, 0xA0-0xBF,
    0x80-0xBF that the [surrogatepass] handler gives it. *)
Fixpoint has_surrogate (s : string) : bool :=
  match s with
  | String a ((String b _) as s') =>
      ((nat_of_ascii a =? 237)%nat && (160 <=? nat_of_ascii b)%nat
       && (nat_of_ascii b <? 192)%nat)
      || has_surrogate s'
  | _ => false
  end.

Definition fence_sql : string := "```sql".
Definition fence : string := "```".

End PyStr.

(** ** Cell values and Python's number formatting *)

(** What a cell of a result table holds once pandas hands a row to Python:
    [None], a [bool], an [int], a binary64 [float] (NaN included) or text. *)
Inductive value : Type :=
| VNone
| VBool (b : bool)
| VInt (z : Z)
| VFloat (f : spec_float)
| VStr (s : string).

(** The parts of the Python runtime whose text the source does not fix:
    [repr] of a float (shortest round-trip digits), a float under the format
    [","] with no precision, [str(e)] of a caught exception, and
    [str.lower()], whose case mapping is the one of the Unicode tables the
    runtime ships (U+212A, the Kelvin sign, becomes [k]).  Of [str.lower()]
    the development uses only what it does on ASCII text. *)
Record Runtime : Type := {
  float_str : spec_float -> string;
  float_comma : spec_float -> string;
  exn_str : exn -> string;
  str_lower : string -> string;
  str_lower_ascii :
    forall s : string, PyStr.is_ascii s = true -> str_lower s = PyStr.lower s
}.

Module PyFmt.

Definition digits (n : N) : string := NilZero.string_of_uint (N.to_uint n).

(** [str(z)] for an [int]. *)
Definition str_int (z : Z) : string :=
  ((if (z <? 0)%Z then "-" else "") ++ digits (Z.abs_N z))%string.

(** Thousands separators: a comma before every group of three digits that
    is not the first. *)
Fixpoint group3 (ds : string) : string :=
  match ds with
  | EmptyString => EmptyString
  | String c ds' =>
      let n := String.length ds' in
      String c (if (0 <? n)%nat && (n mod 3 =? 0)%nat then "," ++ group3 ds' else group3 ds')
  end.

(** [f"{z:,}"] for an [int]. *)
Definition comma_int (z : Z) : string :=
  ((if (z <? 0)%Z then "-" else "") ++ group3 (digits (Z.abs_N z)))%string.

Fixpoint repeat_char (c : ascii) (n : nat) : string :=
  match n with
  | O => EmptyString
  | S n' => String c (repeat_char c n')
  end.

(** [f"{i:2d}"]: right-aligned in a field of width two. *)
Definition width2 (i : nat) : string :=
  let ds := digits (N.of_nat i) in
  (repeat_char " " (2 - String.length ds) ++ ds)%string.

(** The integer nearest to [m * 2^e * 10^d], ties to even: the digits
    [float.__format__] prints for the fixed-point codes are those of the
    correctly rounded decimal. *)
Definition scaled_round (m : positive) (e : Z) (d : nat) : Z :=
  let num := (Z.pos m * 10 ^ Z.of_nat d)%Z in
  if (0 <=? e)%Z then (num * 2 ^ e)%Z
  else
    let den := (2 ^ (- e))%Z in
    let q := (num / den)%Z in
    let r := (num mod den)%Z in
    if (2 * r <? den)%Z then q
    else if (den <? 2 * r)%Z then (q + 1)%Z
    else if Z.even q then q else (q + 1)%Z.

(** Digits of a scaled integer with the decimal point [d] places from the
    right; [grouped] adds thousands separators to the integer part. *)
Definition place_point (grouped : bool) (d : nat) (n : Z) : string :=
  let ds := digits (Z.to_N n) in
  let ds := (repeat_char "0" (S d - String.length ds) ++ ds)%string in
  let k := (String.length ds - d)%nat in
  let ip := substring 0 k ds in
  let fp := substring k d ds in
  ((if grouped then group3 ip else ip) ++ (if (0 <? d)%nat then "." ++ fp else ""))%string.

(** [f"{x:.<d>f}"] ([grouped = false]) and [f"{x:,.<d>f}"] for a float. *)
Definition fixed (grouped : bool) (d : nat) (x : spec_float) : string :=
  match x with
  | S754_nan => "nan"
  | S754_infinity s => if s then "-inf" else "inf"
  | S754_zero s => ((if s then "-" else "") ++ place_point grouped d 0)%string
  | S754_finite s m e =>
      ((if s then "-" else "") ++ place_point grouped d (scaled_round m e d))%string
  end.

(** [float(z)]: round to nearest even, [OverflowError] beyond the range. *)
Definition float_of_int (z : Z) : outcome spec_float :=
  match binary_normalize 53 1024 z 0 false with
  | S754_infinity _ => Raise OverflowError
  | x => Ok x
  end.

Definition int_of_bool (b : bool) : Z := if b then 1%Z else 0%Z.

(** [f"{v:.<d>f}"] for a cell. *)
Definition fmt_fixed (d : nat) (v : value) : outcome string :=
  match v with
  | VFloat x => Ok (fixed false d x)
  | VInt z => let? x := float_of_int z in Ok (fixed false d x)
  | VBool b => let? x := float_of_int (int_of_bool b) in Ok (fixed false d x)
  | VStr _ => Raise ValueError
  | VNone => Raise TypeError
  end.

(** [f"{v:,}"] for a cell. *)
Definition fmt_comma (rt : Runtime) (v : value) : outcome string :=
  match v with
  | VInt z => Ok (comma_int z)
  | VBool b => Ok (comma_int (int_of_bool b))
  | VFloat x => Ok (float_comma rt x)
  | VStr _ => Raise ValueError
  | VNone => Raise TypeError
  end.

(** [str(v)], also [f"{v}"]. *)
Definition str (rt : Runtime) (v : value) : string :=
  match v with
  | VNone => "None"
  | VBool b => if b then "True" else "False"
  | VInt z => str_int z
  | VFloat x => float_str rt x
  | VStr s => s
  end.

(** [pd.notna(v)] *)
Definition notna (v : value) : bool :=
  match v with
  | VNone => false
  | VFloat S754_nan => false
  | _ => true
  end.

Definition SF_of_Z (z : Z) : spec_float := binary_normalize 53 1024 z 0 false.

(** [v > 0] *)
Definition gt_zero (v : value) : outcome bool :=
  match v with
  | VInt z => Ok (0 <? z)%Z
  | VBool b => Ok b
  | VFloat x => Ok (SFltb (S754_zero false) x)
  | VStr _ => Raise TypeError
  | VNone => Raise TypeError
  end.

End PyFmt.

(** ** Result tables *)

(** A row as [iterrows] yields it: the column labels with the row's cells. *)
Definition Series : Type := list (string * value).

(** A [pandas.DataFrame] as the formatters use it.  [number_columns] is what
    [select_dtypes(include=['number']).columns] yields; which columns pandas
    holds with a numeric dtype is its own business.  Column labels are taken
    to be distinct, as the aliases of the templates are. *)
Record DataFrame : Type := {
  columns : list string;
  number_columns : list string;
  records : list (list value)
}.

Module Frame.

(** [len(df)] *)
Definition len (df : DataFrame) : nat := List.length (records df).

(** [df.head(n)] *)
Definition head (n : nat) (df : DataFrame) : DataFrame :=
  {| columns := columns df;
     number_columns := number_columns df;
     records := firstn n (records df) |}.

(** [df.iterrows()], without the index labels the loops discard. *)
Definition iterrows (df : DataFrame) : list Series :=
  map (combine (columns df)) (records df).

(** [key in df.columns] *)
Definition has_column (key : string) (df : DataFrame) : bool :=
  existsb (String.eqb key) (columns df).

Fixpoint lookup (key : string) (row : Series) : option value :=
  match row with
  | [] => None
  | (k, v) :: row' => if String.eqb key k then Some v else lookup key row'
  end.

(** [row.get(key, default)] *)
Definition get (row : Series) (key : string) (default : value) : value :=
  match lookup key row with
  | Some v => v
  | None => default
  end.

(** [row[key]] *)
Definition getitem (row : Series) (key : string) : outcome value :=
  match lookup key row with
  | Some v => Ok v
  | None => Raise (KeyError key)
  end.

(** [row.iloc[i]] *)
Definition iloc (row : Series) (i : nat) : outcome value :=
  match nth_error row i with
  | Some (_, v) => Ok v
  | None => Raise IndexError
  end.

Definition empty : DataFrame :=
  {| columns := []; number_columns := []; records := [] |}.

End Frame.

(** ** The world of a chatbot instance and the monad of its methods *)

(** The SQL statements handed to [pd.read_sql] so far, oldest first. *)
Definition Log : Type := list string.

(** [llm question] stands for [client.chat.completions.create] on the prompt
    the instance builds around [question], followed by
    [response.choices[0].message.content]: it raises, or yields the content,
    which the API types as optional: the reply of the one call an [ask]
    makes.  [read_sql log query] stands for [pd.read_sql(query, engine)]
    after the statements of [log].  [print text] stands for [print(text)]:
    it returns, or raises what the encoder of the console raises on a text
    it cannot encode.  [execution_time log] is the difference of the two
    readings of [time.time()] around the statement executed after [log]. *)
Record World : Type := {
  llm : string -> outcome (option string);
  read_sql : Log -> string -> outcome DataFrame;
  print : string -> outcome unit;
  execution_time : Log -> spec_float
}.

Definition M (A : Type) : Type := Log -> outcome A * Log.

Definition ret {A : Type} (a : A) : M A := fun log => (Ok a, log).

Definition bind {A B : Type} (m : M A) (k : A -> M B) : M B :=
  fun log =>
    match m log with
    | (Ok a, log') => k a log'
    | (Raise e, log') => (Raise e, log')
    end.

Definition lift {A : Type} (o : outcome A) : M A := fun log => (o, log).

(** [try: body except Exception as e: handler e] *)
Definition try_catch {A : Type} (body : M A) (handler : exn -> M A) : M A :=
  fun log =>
    match body log with
    | (Ok a, log') => (Ok a, log')
    | (Raise e, log') => handler e log'
    end.

(** The same, for code that touches no state. *)
Definition try_pure {A : Type} (body : outcome A) (handler : exn -> outcome A) : outcome A :=
  match body with
  | Ok a => Ok a
  | Raise e => handler e
  end.

Declare Scope chat_scope.
Delimit Scope chat_scope with chat.
Notation "x <- m ;; k" := (bind m (fun x => k))
  (at level 61, m at next level, right associativity) : chat_scope.
#[local] Open Scope chat_scope.

(** Python truthiness of a value that is [None] or a [str]. *)
Definition truthy (s : option string) : bool :=
  match s with
  | None => false
  | Some t => negb (PyStr.is_empty t)
  end.

(** ** Code the two classes share word for word *)

(** [_get_query_from_llm] and [_execute_query] are given here without
    their [print] calls: what they do on a console that accepts every text.
    The modules [IPLStatsPostgresChatbotIO] and [IPLStatsEnhancedChatbotIO]
    below give them with their output. *)
Module Common.
Import PyStr.

(** The cleanup of the reply in [_get_query_from_llm]
    (ipl_chatbot_postgres.py 150-159, ipl_chatbot_enhanced.py 204-213). *)
Definition clean_reply (content : string) : outcome string :=
  let query_code := strip content in
  let? query_code :=
    if contains fence_sql query_code then
      let? after := split fence_sql query_code in
      let? body := item after 1 in
      let? parts := split fence body in
      let? block := item parts 0 in
      Ok (strip block)
    else if contains fence query_code then
      let? parts := split fence query_code in
      let? block := item parts 1 in
      Ok (strip block)
    else Ok query_code in
  Ok (strip (rstrip_semicolons query_code)).

(** [_get_query_from_llm]: the cleaned query, or [None] when anything in
    the [try] block raises ([content] being [None] makes [.strip()] raise). *)
Definition _get_query_from_llm (w : World) (user_question : string) : M (option string) :=
  try_catch
    (lift (let? content := llm w user_question in
           match content with
           | None => Raise AttributeError
           | Some text => let? query_code := clean_reply text in Ok (Some query_code)
           end))
    (fun _ => ret None).

(** [_execute_query]: the table, or [None] when [pd.read_sql] raises. *)
Definition _execute_query (w : World) (query_code : string) : M (option DataFrame) :=
  try_catch
    (fun log =>
       (match read_sql w log query_code with
        | Ok result_df => Ok (Some result_df)
        | Raise e => Raise e
        end, (log ++ [query_code])%list))
    (fun _ => ret None).

Definition could_not_process : string :=
  "Sorry, I couldn't process your query. Please try rephrasing your question.".
Definition no_data_found : string := "No data found matching your criteria.".

Definition medal_1 : string := "🥇".
Definition medal_2 : string := "🥈".
Definition medal_3 : string := "🥉".

(** [for i, row in enumerate(rows, start)]: the body threads the text
    built so far and may raise. *)
Fixpoint for_enumerate {R : Type} (body : nat -> R -> string -> outcome string)
    (i : nat) (rows : list R) (formatted : string) : outcome string :=
  match rows with
  | [] => Ok formatted
  | row :: rows' =>
      let? formatted := body i row formatted in
      for_enumerate body (S i) rows' formatted
  end.

End Common.

(** ** Bowling-style conditions of the SQL text *)

Module Sql.
Import PyStr.

(** The tests on ["bowling_style"] that the prompts and templates write:
    [col LIKE '%sub%'], its negation, and [col IN (codes)]. *)
Inductive test : Type :=
| Like (sub : string)
| NotLike (sub : string)
| In (codes : list string).

(** PostgreSQL's reading on a non-null text: [LIKE '%sub%'] holds when
    [sub] occurs in the value (case-sensitive), [IN] when the value equals
    one of the codes. *)
Definition holds (t : test) (style : string) : bool :=
  match t with
  | Like sub => contains sub style
  | NotLike sub => negb (contains sub style)
  | In codes => existsb (String.eqb style) codes
  end.

(** [t1 OR t2 OR ...] and [t1 AND t2 AND ...] *)
Definition any_of (ts : list test) (style : string) : bool :=
  existsb (fun t => holds t style) ts.
Definition all_of (ts : list test) (style : string) : bool :=
  forallb (fun t => holds t style) ts.

Definition quoted (code : string) : string := "'" ++ code ++ "'".

Definition render (col : string) (t : test) : string :=
  match t with
  | Like sub => col ++ " LIKE '%" ++ sub ++ "%'"
  | NotLike sub => col ++ " NOT LIKE '%" ++ sub ++ "%'"
  | In codes => col ++ " IN (" ++ String.concat "," (map quoted codes) ++ ")"
  end.

Definition render_any (col : string) (ts : list test) : string :=
  String.concat " OR " (map (render col) ts).
Definition render_all (col : string) (ts : list test) : string :=
  String.concat " AND " (map (render col) ts).

End Sql.

(** ** The baseline class, src/ipl_chatbot_postgres.py *)

(** The templates, the formatters, and the methods that reach the LLM and
    the database, these without their [print] calls. *)
Module IPLStatsPostgresChatbot.
Import PyStr.

(** ipl_chatbot_postgres.py 281 *)
Definition top_run_scorers_query : string :=
  "SELECT " ++ qt "batter" ++ ", SUM(" ++ qt "runs_batter" ++ ") as total_runs FROM ipl_balls WHERE " ++ qt "batter" ++ " != '' GROUP BY " ++ qt "batter" ++ " ORDER BY total_runs DESC LIMIT 10".

(** ipl_chatbot_postgres.py 286 *)
Definition top_wicket_takers_query : string :=
  "SELECT " ++ qt "bowler" ++ ", COUNT(*) as wickets FROM ipl_balls WHERE " ++ qt "isWicket" ++ " = TRUE AND " ++ qt "bowler" ++ " != '' GROUP BY " ++ qt "bowler" ++ " ORDER BY wickets DESC LIMIT 10".

(** ipl_chatbot_postgres.py 291-300 *)
Definition death_pace_query : string :=
  String.concat nl
    [ EmptyString
    ; "                SELECT " ++ qt "batter" ++ ", SUM(" ++ qt "runs_batter" ++ ") as runs "
    ; "                FROM ipl_balls "
    ; "                WHERE " ++ qt "over" ++ " >= 16 AND (" ++ qt "bowling_style" ++ " LIKE '%rm%' OR " ++ qt "bowling_style" ++ " LIKE '%rfm%' OR " ++ qt "bowling_style" ++ " LIKE '%lfm%')"
    ; "                AND " ++ qt "batter" ++ " != ''"
    ; "                GROUP BY " ++ qt "batter" ++ " "
    ; "                HAVING SUM(" ++ qt "runs_batter" ++ ") > 50"
    ; "                ORDER BY runs DESC "
    ; "                LIMIT 10"
    ; "                "
    ].

(** ipl_chatbot_postgres.py 305-316 *)
Definition death_strike_rate_query : string :=
  String.concat nl
    [ EmptyString
    ; "                SELECT " ++ qt "batter" ++ ", "
    ; "                       SUM(" ++ qt "runs_batter" ++ ") as death_runs,"
    ; "                       COUNT(*) as death_balls,"
    ; "                       ROUND((SUM(" ++ qt "runs_batter" ++ ")::numeric / NULLIF(COUNT(*), 0)) * 100, 2) as death_sr"
    ; "                FROM ipl_balls "
    ; "                WHERE " ++ qt "over" ++ " >= 16 AND " ++ qt "batter" ++ " != ''"
    ; "                GROUP BY " ++ qt "batter"
    ; "                HAVING COUNT(*) >= 30"
    ; "                ORDER BY death_sr DESC "
    ; "                LIMIT 10"
    ; "                "
    ].

(** ipl_chatbot_postgres.py 321-328 *)
Definition no_match_message : string :=
  String.concat nl
    [ "I couldn't understand your question. Please try asking about:"
    ; EmptyString
    ; "• Top run scorers or wicket takers"
    ; "• Performance in death overs, powerplay, or middle overs"
    ; "• Strike rates or averages"
    ; "• Specific seasons (2008-2024)"
    ; "• Performance vs pace or spin bowling"
    ; "• Team-specific statistics"
    ; EmptyString
    ; "Example: 'Who are the top 10 run scorers in IPL history?'"
    ].

(** ipl_chatbot_postgres.py 119, in the prompt *)
Definition pace_guidance : string :=
  "5. For pace bowling: WHERE " ++ qt "bowling_style" ++ " LIKE '%rm%' OR " ++ qt "bowling_style" ++ " LIKE '%rfm%' OR " ++ qt "bowling_style" ++ " LIKE '%lfm%'".

(** ipl_chatbot_postgres.py 120, in the prompt *)
Definition spin_guidance : string :=
  "6. For spin bowling: WHERE " ++ qt "bowling_style" ++ " NOT LIKE '%rm%' AND " ++ qt "bowling_style" ++ " NOT LIKE '%rfm%' AND " ++ qt "bowling_style" ++ " NOT LIKE '%lfm%'".

(** ipl_chatbot_postgres.py 130, in the prompt *)
Definition pace_example : string :=
  "  WHERE " ++ qt "over" ++ " >= 16 AND (" ++ qt "bowling_style" ++ " LIKE '%rm%' OR " ++ qt "bowling_style" ++ " LIKE '%rfm%' OR " ++ qt "bowling_style" ++ " LIKE '%lfm%') ".

(** The pace test of [pace_guidance], [pace_example] and
    [death_pace_query], and the spin test of [spin_guidance]. *)
Definition pace_filter : list Sql.test :=
  [Sql.Like "rm"; Sql.Like "rfm"; Sql.Like "lfm"].
Definition spin_filter : list Sql.test :=
  [Sql.NotLike "rm"; Sql.NotLike "rfm"; Sql.NotLike "lfm"].

Definition prompt_pace (style : string) : bool := Sql.any_of pace_filter style.
Definition prompt_spin (style : string) : bool := Sql.all_of spin_filter style.
Definition fallback_pace (style : string) : bool := Sql.any_of pace_filter style.

Definition _get_query_from_llm := Common._get_query_from_llm.
Definition _execute_query := Common._execute_query.

Section Formatting.
Variable rt : Runtime.

(** The main statistic of a row and its label (lines 228-251). *)
Definition main_statistic (df : DataFrame) (row : Series) (metric_name : string)
  : outcome (value * string) :=
  if Frame.has_column "total_runs" df then
    let? v := Frame.getitem row "total_runs" in Ok (v, "runs")
  else if Frame.has_column "runs" df then
    let? v := Frame.getitem row "runs" in Ok (v, "runs")
  else if Frame.has_column "wickets" df then
    let? v := Frame.getitem row "wickets" in Ok (v, "wickets")
  else if Frame.has_column "death_runs" df then
    let? v := Frame.getitem row "death_runs" in Ok (v, "death runs")
  else if Frame.has_column "strike_rate" df || Frame.has_column "death_sr" df then
    Ok (Frame.get row "strike_rate" (Frame.get row "death_sr" VNone), "SR")
  else
    match number_columns df with
    | col :: _ => let? v := Frame.getitem row col in Ok (v, metric_name)
    | [] => Ok (VNone, metric_name)
    end.

(** The text of the main statistic (lines 254-260). *)
Definition value_text (main_stat : value) (stat_name : string) : outcome string :=
  match main_stat with
  | VFloat x =>
      if String.eqb stat_name "SR" then Ok (PyFmt.fixed false 2 x)
      else if SFleb (PyFmt.SF_of_Z 100) x then Ok (PyFmt.fixed true 0 x)
      else Ok (PyFmt.fixed false 1 x)
  | _ => PyFmt.fmt_comma rt main_stat
  end.

(** The body of the loop over the rows (lines 220-264). *)
Definition format_row (df : DataFrame) (metric_name : string)
    (i : nat) (row : Series) (formatted : string) : outcome string :=
  let medal :=
    if (i =? 1)%nat then Common.medal_1
    else if (i =? 2)%nat then Common.medal_2
    else if (i =? 3)%nat then Common.medal_3
    else PyFmt.width2 i ++ "." in
  let? first := Frame.iloc row 0 in
  let name := Frame.get row "batter" (Frame.get row "bowler" (VStr (PyFmt.str rt first))) in
  let? stat := main_statistic df row metric_name in
  let (main_stat, stat_name) := stat in
  match main_stat with
  | VNone => Ok (formatted ++ medal ++ " **" ++ PyFmt.str rt name ++ "**" ++ nl)
  | _ =>
      let? value_str := value_text main_stat stat_name in
      Ok (formatted ++ medal ++ " **" ++ PyFmt.str rt name ++ "** - "
            ++ value_str ++ " " ++ stat_name ++ nl)
  end.

Definition _format_dataframe (df : DataFrame) (question_lower : string) : outcome string :=
  try_pure
    (let metric_name :=
       if any_in ["run"; "scorer"; "batting"] question_lower then "runs"
       else if any_in ["wicket"; "bowler"] question_lower then "wickets"
       else if contains "strike rate" question_lower then "strike rate"
       else "points" in
     let formatted :=
       "🏏 **Top " ++ PyFmt.digits (N.of_nat (Nat.min (Frame.len df) 15))
         ++ " Results:**" ++ nl ++ nl in
     let? formatted :=
       Common.for_enumerate (format_row df metric_name) 1
         (Frame.iterrows (Frame.head 15 df)) formatted in
     if (15 <? Frame.len df)%nat then
       Ok (formatted ++ nl ++ "... and " ++ PyFmt.digits (N.of_nat (Frame.len df - 15))
             ++ " more results")
     else Ok formatted)
    (fun e => Ok ("Error formatting results: " ++ exn_str rt e)).

(** [result] is what [_execute_query] returned: a table or [None]. *)
Definition _format_result (result : option DataFrame) (user_question : string)
  : outcome string :=
  match result with
  | None => Ok Common.could_not_process
  | Some df =>
      if (Frame.len df =? 0)%nat then Ok Common.no_data_found
      else
        try_pure
          (let question_lower := str_lower rt user_question in
           _format_dataframe df question_lower)
          (fun e => Ok ("Error formatting result: " ++ exn_str rt e))
  end.

Definition run_template (w : World) (query question : string) : M string :=
  result <- _execute_query w query ;;
  lift (_format_result result question).

Definition _try_fallback_queries (w : World) (question : string) : M string :=
  let question_lower := str_lower rt question in
  try_catch
    (if any_in ["top"; "best"; "highest"] question_lower
        && any_in ["run"; "scorer"] question_lower then
       run_template w top_run_scorers_query question
     else if any_in ["wicket"; "bowler"] question_lower
             && contains "top" question_lower then
       run_template w top_wicket_takers_query question
     else if contains "death over" question_lower
             && contains "pace" question_lower then
       run_template w death_pace_query question
     else if contains "death over" question_lower
             && contains "strike rate" question_lower then
       run_template w death_strike_rate_query question
     else ret no_match_message)
    (fun e =>
       ret ("Sorry, I encountered an error while processing your question: "
              ++ exn_str rt e)).

Definition ask (w : World) (question : string) : M string :=
  query_code <- _get_query_from_llm w question ;;
  match query_code with
  | Some sql =>
      if is_empty sql then _try_fallback_queries w question
      else
        result <- _execute_query w sql ;;
        match result with
        | None => _try_fallback_queries w question
        | Some _ =>
            formatted_result <- lift (_format_result result question) ;;
            ret formatted_result
        end
  | None => _try_fallback_queries w question
  end.

End Formatting.

(** The template the [if]/[elif] chain of [_try_fallback_queries] picks for
    a lower-cased question, [None] for the help message. *)
Definition template_of (question_lower : string) : option string :=
  if any_in ["top"; "best"; "highest"] question_lower
     && any_in ["run"; "scorer"] question_lower then Some top_run_scorers_query
  else if any_in ["wicket"; "bowler"] question_lower
          && contains "top" question_lower then Some top_wicket_takers_query
  else if contains "death over" question_lower
          && contains "pace" question_lower then Some death_pace_query
  else if contains "death over" question_lower
          && contains "strike rate" question_lower then Some death_strike_rate_query
  else None.

End IPLStatsPostgresChatbot.

(** ** The enhanced class, src/ipl_chatbot_enhanced.py *)

(** The templates, the formatters, and the methods that reach the LLM and
    the database, these without their [print] calls. *)
Module IPLStatsEnhancedChatbot.
Import PyStr.

(** [_initialize_bowling_classifications] *)
Definition pace_styles : list string := ["rm"; "rfm"; "rmf"; "lf"; "lfm"; "lmf"].
Definition spin_styles : list string := ["ob"; "lb"; "sla"; "lbg"; "lws"].

(** ipl_chatbot_enhanced.py 328-343 *)
Definition top_run_scorers_query : string :=
  String.concat nl
    [ EmptyString
    ; "                SELECT "
    ; "                    " ++ qt "batter" ++ ","
    ; "                    COUNT(*) as balls_faced,"
    ; "                    SUM(" ++ qt "runs_batter" ++ ") as total_runs,"
    ; "                    SUM(" ++ qt "isFour" ++ "::int) as fours,"
    ; "                    SUM(" ++ qt "isSix" ++ "::int) as sixes,"
    ; "                    ROUND((SUM(" ++ qt "runs_batter" ++ ")::numeric / NULLIF(COUNT(*), 0)) * 100, 2) as strike_rate,"
    ; "                    COUNT(CASE WHEN " ++ qt "isWicket" ++ " = TRUE THEN 1 END) as times_out,"
    ; "                    ROUND(SUM(" ++ qt "runs_batter" ++ ")::numeric / NULLIF(COUNT(CASE WHEN " ++ qt "isWicket" ++ " = TRUE THEN 1 END), 0), 2) as batting_average"
    ; "                FROM ipl_balls "
    ; "                WHERE " ++ qt "batter" ++ " != '' AND " ++ qt "batter" ++ " IS NOT NULL"
    ; "                GROUP BY " ++ qt "batter"
    ; "                HAVING SUM(" ++ qt "runs_batter" ++ ") > 500"
    ; "                ORDER BY total_runs DESC LIMIT 12"
    ; "                "
    ].

(** ipl_chatbot_enhanced.py 349-362 *)
Definition top_wicket_takers_query : string :=
  String.concat nl
    [ EmptyString
    ; "                SELECT "
    ; "                    " ++ qt "bowler" ++ ","
    ; "                    COUNT(CASE WHEN " ++ qt "isWicket" ++ " = TRUE THEN 1 END) as wickets,"
    ; "                    COUNT(*) as balls_bowled,"
    ; "                    SUM(" ++ qt "runs_total" ++ ") as runs_conceded,"
    ; "                    ROUND(SUM(" ++ qt "runs_total" ++ ")::numeric / NULLIF(COUNT(CASE WHEN " ++ qt "isWicket" ++ " = TRUE THEN 1 END), 0), 2) as bowling_avg,"
    ; "                    ROUND((SUM(" ++ qt "runs_total" ++ ")::numeric / NULLIF(COUNT(*), 0)) * 6, 2) as economy_rate"
    ; "                FROM ipl_balls "
    ; "                WHERE " ++ qt "bowler" ++ " != '' AND " ++ qt "bowler" ++ " IS NOT NULL"
    ; "                GROUP BY " ++ qt "bowler"
    ; "                HAVING COUNT(CASE WHEN " ++ qt "isWicket" ++ " = TRUE THEN 1 END) >= 15"
    ; "                ORDER BY wickets DESC LIMIT 12"
    ; "                "
    ].

(** ipl_chatbot_enhanced.py 368-384 *)
Definition death_pace_query : string :=
  String.concat nl
    [ EmptyString
    ; "                SELECT "
    ; "                    " ++ qt "batter" ++ ","
    ; "                    COUNT(*) as death_balls_vs_pace,"
    ; "                    SUM(" ++ qt "runs_batter" ++ ") as death_runs,"
    ; "                    ROUND((SUM(" ++ qt "runs_batter" ++ ")::numeric / NULLIF(COUNT(*), 0)) * 100, 2) as death_sr_vs_pace,"
    ; "                    SUM(" ++ qt "isFour" ++ "::int) + SUM(" ++ qt "isSix" ++ "::int) as boundaries,"
    ; "                    SUM(" ++ qt "isFour" ++ "::int) as fours,"
    ; "                    SUM(" ++ qt "isSix" ++ "::int) as sixes"
    ; "                FROM ipl_balls "
    ; "                WHERE " ++ qt "over" ++ " >= 16 "
    ; "                    AND (" ++ qt "bowling_style" ++ " LIKE '%rm%' OR " ++ qt "bowling_style" ++ " LIKE '%rf%' OR " ++ qt "bowling_style" ++ " IN ('rm','rfm','rmf','lf','lfm','lmf'))"
    ; "                    AND " ++ qt "batter" ++ " != '' AND " ++ qt "batter" ++ " IS NOT NULL"
    ; "                GROUP BY " ++ qt "batter"
    ; "                HAVING COUNT(*) >= 25"
    ; "                ORDER BY death_runs DESC LIMIT 12"
    ; "                "
    ].

(** ipl_chatbot_enhanced.py 390-402 *)
Definition death_strike_rate_query : string :=
  String.concat nl
    [ EmptyString
    ; "                SELECT "
    ; "                    " ++ qt "batter" ++ ","
    ; "                    COUNT(*) as death_balls,"
    ; "                    SUM(" ++ qt "runs_batter" ++ ") as death_runs,"
    ; "                    ROUND((SUM(" ++ qt "runs_batter" ++ ")::numeric / NULLIF(COUNT(*), 0)) * 100, 2) as death_sr,"
    ; "                    SUM(" ++ qt "isFour" ++ "::int) + SUM(" ++ qt "isSix" ++ "::int) as boundaries"
    ; "                FROM ipl_balls "
    ; "                WHERE " ++ qt "over" ++ " >= 16 AND " ++ qt "batter" ++ " != '' AND " ++ qt "batter" ++ " IS NOT NULL"
    ; "                GROUP BY " ++ qt "batter"
    ; "                HAVING COUNT(*) >= 30 AND SUM(" ++ qt "runs_batter" ++ ") > 100"
    ; "                ORDER BY death_sr DESC LIMIT 12"
    ; "                "
    ].

(** ipl_chatbot_enhanced.py 415-426, up to the year *)
Definition season_query_before : string :=
  String.concat nl
    [ EmptyString
    ; "                    SELECT "
    ; "                        " ++ qt "batter" ++ ","
    ; "                        SUM(" ++ qt "runs_batter" ++ ") as total_runs,"
    ; "                        COUNT(*) as balls_faced,"
    ; "                        ROUND((SUM(" ++ qt "runs_batter" ++ ")::numeric / NULLIF(COUNT(*), 0)) * 100, 2) as strike_rate,"
    ; "                        SUM(" ++ qt "isFour" ++ "::int) as fours,"
    ; "                        SUM(" ++ qt "isSix" ++ "::int) as sixes,"
    ; "                        COUNT(CASE WHEN " ++ qt "isWicket" ++ " = TRUE THEN 1 END) as times_out,"
    ; "                        ROUND(SUM(" ++ qt "runs_batter" ++ ")::numeric / NULLIF(COUNT(CASE WHEN " ++ qt "isWicket" ++ " = TRUE THEN 1 END), 0), 2) as batting_average"
    ; "                    FROM ipl_balls "
    ; "                    WHERE " ++ qt "year" ++ " = "
    ].

(** ipl_chatbot_enhanced.py 426-430, after the year *)
Definition season_query_after : string :=
  String.concat nl
    [ " AND " ++ qt "batter" ++ " != '' AND " ++ qt "batter" ++ " IS NOT NULL"
    ; "                    GROUP BY " ++ qt "batter"
    ; "                    HAVING SUM(" ++ qt "runs_batter" ++ ") > 200"
    ; "                    ORDER BY total_runs DESC LIMIT 12"
    ; "                    "
    ].

(** ipl_chatbot_enhanced.py 440-460 *)
Definition _get_helpful_suggestions : string :=
  String.concat nl
    [ "I can help you with detailed IPL cricket analytics! Try asking about:"
    ; EmptyString
    ; "🏏 **Batting Analysis:**"
    ; "• " ++ qt "Top run scorers in IPL history" ++ " (with strike rate, average, boundaries)"
    ; "• " ++ qt "Best batters in death overs vs pace bowling"
    ; "• " ++ qt "Highest strike rates in powerplay"
    ; "• " ++ qt "Best batting averages in IPL 2024"
    ; EmptyString
    ; "🎯 **Bowling Analysis:**  "
    ; "• " ++ qt "Top wicket takers in IPL" ++ " (with economy, average, strike rate)"
    ; "• " ++ qt "Best bowling figures in death overs"
    ; "• " ++ qt "Most economical bowlers in powerplay"
    ; EmptyString
    ; "📊 **Advanced Queries:**"
    ; "• " ++ qt "Strike rate analysis in death overs"
    ; "• " ++ qt "Left-handed batsmen vs spin bowling"
    ; "• " ++ qt "Team performance in specific seasons"
    ; EmptyString
    ; "**Example:** Try " ++ qt "Best batters vs pace bowling in death overs" ++ " for comprehensive statistics!"
    ].

(** ipl_chatbot_enhanced.py 89, in the data summary of the prompt *)
Definition pace_guidance : string :=
  "- Pace Bowlers: bowling_style IN ('rm','rfm','rmf','lf','lfm','lmf') OR bowling_style LIKE '%rm%' OR bowling_style LIKE '%rf%'".

(** ipl_chatbot_enhanced.py 90, in the data summary of the prompt *)
Definition spin_guidance : string :=
  "- Spin Bowlers: bowling_style IN ('ob','lb','sla','lbg','lws') OR bowling_style NOT LIKE ANY pace patterns".

(** ipl_chatbot_enhanced.py 171, in the prompt *)
Definition pace_example : string :=
  "    AND (" ++ qt "bowling_style" ++ " LIKE '%rm%' OR " ++ qt "bowling_style" ++ " LIKE '%rf%' OR " ++ qt "bowling_style" ++ " IN ('rm','rfm','rmf','lf','lfm','lmf'))".


(** The pace test as [pace_guidance] writes it and as [pace_example] and
    [death_pace_query] write it, and the spin test of [spin_guidance]
    ("NOT LIKE ANY pace patterns": none of the two [LIKE] patterns). *)
Definition guidance_pace_filter : list Sql.test :=
  [Sql.In pace_styles; Sql.Like "rm"; Sql.Like "rf"].
Definition template_pace_filter : list Sql.test :=
  [Sql.Like "rm"; Sql.Like "rf"; Sql.In pace_styles].

Definition prompt_pace (style : string) : bool := Sql.any_of guidance_pace_filter style.
Definition prompt_spin (style : string) : bool :=
  Sql.holds (Sql.In spin_styles) style
  || Sql.all_of [Sql.NotLike "rm"; Sql.NotLike "rf"] style.
Definition fallback_pace (style : string) : bool := Sql.any_of template_pace_filter style.

(** [season_query year] is the f-string of lines 415-430. *)
Definition season_query (year : Z) : string :=
  season_query_before ++ PyFmt.str_int year ++ season_query_after.

Definition _get_query_from_llm := Common._get_query_from_llm.
Definition _execute_query := Common._execute_query.

Section Formatting.
Variable rt : Runtime.

(** [stats_parts.append(text)] when [test] holds. *)
Definition append_if (test : bool) (text : outcome string) (stats_parts : list string)
  : outcome (list string) :=
  if test then let? t := text in Ok (stats_parts ++ [t])%list else Ok stats_parts.

(** [key in df.columns and pd.notna(row[key])] *)
Definition present (df : DataFrame) (row : Series) (key : string) : outcome bool :=
  if Frame.has_column key df then
    let? v := Frame.getitem row key in Ok (PyFmt.notna v)
  else Ok false.

(** [key in df.columns and row[key] > 0] *)
Definition positive_count (df : DataFrame) (row : Series) (key : string) : outcome bool :=
  if Frame.has_column key df then
    let? v := Frame.getitem row key in PyFmt.gt_zero v
  else Ok false.

(** [f"{prefix}{row[key]:.1f}"] *)
Definition rate (row : Series) (prefix key : string) : outcome string :=
  let? v := Frame.getitem row key in
  let? t := PyFmt.fmt_fixed 1 v in
  Ok (prefix ++ t).

(** [f"**{row[key]:,} {label}**"] *)
Definition count_bold (row : Series) (key label : string) : outcome string :=
  let? v := Frame.getitem row key in
  let? t := PyFmt.fmt_comma rt v in
  Ok ("**" ++ t ++ " " ++ label ++ "**").

(** [f"{row[key]}"] *)
Definition plain (row : Series) (key : string) : outcome string :=
  let? v := Frame.getitem row key in Ok (PyFmt.str rt v).

(** Lines 267-273: runs. *)
Definition runs_part (df : DataFrame) (row : Series) (stats_parts : list string)
  : outcome (list string) :=
  if Frame.has_column "total_runs" df then
    append_if true (count_bold row "total_runs" "runs") stats_parts
  else if Frame.has_column "runs" df then
    append_if true (count_bold row "runs" "runs") stats_parts
  else if Frame.has_column "death_runs" df then
    append_if true (count_bold row "death_runs" "death runs") stats_parts
  else Ok stats_parts.

(** Lines 275-280: strike rate. *)
Definition strike_rate_part (df : DataFrame) (row : Series) (stats_parts : list string)
  : outcome (list string) :=
  let? sr := present df row "strike_rate" in
  if sr then append_if true (rate row "SR: " "strike_rate") stats_parts
  else
    let? dsp := present df row "death_sr_vs_pace" in
    if dsp then append_if true (rate row "Death SR: " "death_sr_vs_pace") stats_parts
    else
      let? ds := present df row "death_sr" in
      if ds then append_if true (rate row "Death SR: " "death_sr") stats_parts
      else Ok stats_parts.

(** Lines 282-283: batting average, shown when it is above zero. *)
Definition average_part (df : DataFrame) (row : Series) (stats_parts : list string)
  : outcome (list string) :=
  let? there := present df row "batting_average" in
  if there then
    let? v := Frame.getitem row "batting_average" in
    let? pos := PyFmt.gt_zero v in
    append_if pos (rate row "Avg: " "batting_average") stats_parts
  else Ok stats_parts.

(** Lines 285-288: boundaries. *)
Definition boundaries_part (df : DataFrame) (row : Series) (stats_parts : list string)
  : outcome (list string) :=
  if Frame.has_column "fours" df && Frame.has_column "sixes" df then
    append_if true
      (let? f := plain row "fours" in
       let? s := plain row "sixes" in
       Ok ("4s/6s: " ++ f ++ "/" ++ s))
      stats_parts
  else if Frame.has_column "boundaries" df then
    append_if true (let? b := plain row "boundaries" in Ok ("Boundaries: " ++ b)) stats_parts
  else Ok stats_parts.

(** Lines 291-298: bowling. *)
Definition bowling_part (df : DataFrame) (row : Series) (stats_parts : list string)
  : outcome (list string) :=
  let? stats_parts :=
    append_if (Frame.has_column "wickets" df)
      (let? k := plain row "wickets" in Ok ("**" ++ k ++ " wickets**")) stats_parts in
  let? avg := present df row "bowling_avg" in
  let? stats_parts := append_if avg (rate row "Avg: " "bowling_avg") stats_parts in
  let? eco := present df row "economy_rate" in
  append_if eco (rate row "Eco: " "economy_rate") stats_parts.

(** Lines 301-306: the sample size. *)
Definition sample_part (df : DataFrame) (row : Series) (stats_parts : list string)
  : outcome (list string) :=
  let? faced := positive_count df row "balls_faced" in
  if faced then
    append_if true (let? n := plain row "balls_faced" in Ok ("(" ++ n ++ " balls)")) stats_parts
  else
    let? vs_pace := positive_count df row "death_balls_vs_pace" in
    if vs_pace then
      append_if true
        (let? n := plain row "death_balls_vs_pace" in Ok ("(" ++ n ++ " vs pace)")) stats_parts
    else
      let? bowled := positive_count df row "balls_bowled" in
      if bowled then
        append_if true
          (let? n := plain row "balls_bowled" in Ok ("(" ++ n ++ " balls)")) stats_parts
      else Ok stats_parts.

(** The body of the loop over the rows (lines 258-311). *)
Definition format_row (df : DataFrame) (i : nat) (row : Series) (formatted : string)
  : outcome string :=
  let medal :=
    if (i =? 1)%nat then Common.medal_1
    else if (i =? 2)%nat then Common.medal_2
    else if (i =? 3)%nat then Common.medal_3
    else "**" ++ PyFmt.width2 i ++ ".**" in
  let? first := Frame.iloc row 0 in
  let name := Frame.get row "batter" (Frame.get row "bowler" (VStr (PyFmt.str rt first))) in
  let? stats_parts := runs_part df row [] in
  let? stats_parts := strike_rate_part df row stats_parts in
  let? stats_parts := average_part df row stats_parts in
  let? stats_parts := boundaries_part df row stats_parts in
  let? stats_parts := bowling_part df row stats_parts in
  let? stats_parts := sample_part df row stats_parts in
  let stats_str := String.concat " | " stats_parts in
  Ok (formatted ++ medal ++ " **" ++ PyFmt.str rt name ++ "** - " ++ stats_str ++ nl).

Definition _format_enhanced_dataframe (df : DataFrame) (question_lower : string)
  : outcome string :=
  try_pure
    (let formatted := "🏏 **Cricket Analytics Results:**" ++ nl ++ nl in
     let? formatted :=
       Common.for_enumerate (format_row df) 1
         (Frame.iterrows (Frame.head 12 df)) formatted in
     if (12 <? Frame.len df)%nat then
       Ok (formatted ++ nl ++ "... and " ++ PyFmt.digits (N.of_nat (Frame.len df - 12))
             ++ " more results")
     else Ok formatted)
    (fun e => Ok ("Error formatting results: " ++ exn_str rt e)).

Definition _format_result (result : option DataFrame) (user_question : string)
  : outcome string :=
  match result with
  | None => Ok Common.could_not_process
  | Some df =>
      if (Frame.len df =? 0)%nat then Ok Common.no_data_found
      else
        try_pure
          (let question_lower := str_lower rt user_question in
           _format_enhanced_dataframe df question_lower)
          (fun e => Ok ("Error formatting result: " ++ exn_str rt e))
  end.

Definition run_template (w : World) (query question : string) : M (option string) :=
  result <- _execute_query w query ;;
  answer <- lift (_format_result result question) ;;
  ret (Some answer).

(** The known season years, in the order the loop of lines 409-412 tries
    them. *)
Definition known_years : list string := ["2024"; "2023"; "2022"; "2021"].

(** [int(y)] for a string of decimal digits; [ValueError] otherwise. *)
Definition int_of_digits (y : string) : outcome Z :=
  match NilZero.uint_of_string y with
  | Some u => Ok (Z.of_N (N.of_uint u))
  | None => Raise ValueError
  end.

(** Lines 408-412: the first known year that occurs in the question;
    [None] where the loop leaves [year] unset. *)
Fixpoint extract_year (years : list string) (question_lower : string)
  : outcome (option Z) :=
  match years with
  | [] => Ok None
  | y :: years' =>
      if contains y question_lower then let? year := int_of_digits y in Ok (Some year)
      else extract_year years' question_lower
  end.

(** The five tests of the [if]/[elif] chain, in order. *)
Definition is_top_run_scorers (question_lower : string) : bool :=
  (any_in ["top"; "best"; "highest"] question_lower
   && any_in ["run"; "scorer"; "batsman"; "batter"] question_lower)
  && negb (any_in ["death"; "2024"; "2023"; "2022"; "pace"; "bowling"] question_lower).
Definition is_top_wicket_takers (question_lower : string) : bool :=
  any_in ["wicket"; "bowler"] question_lower && contains "top" question_lower.
Definition is_death_pace (question_lower : string) : bool :=
  (contains "death" question_lower && contains "pace" question_lower)
  || (contains "death over" question_lower
      && (contains "pace" question_lower || contains "vs pace" question_lower)).
Definition is_death_strike_rate (question_lower : string) : bool :=
  (contains "strike rate" question_lower || contains "sr" question_lower)
  && contains "death" question_lower.
Definition is_season (question_lower : string) : bool :=
  any_in ["2024"; "2023"; "2022"; "2021"] question_lower.

(** A method that falls off its end returns [None]: the season branch
    returns only under [if year:]. *)
Definition _try_enhanced_fallback_queries (w : World) (question : string)
  : M (option string) :=
  let question_lower := str_lower rt question in
  try_catch
    (if is_top_run_scorers question_lower then
       run_template w top_run_scorers_query question
     else if is_top_wicket_takers question_lower then
       run_template w top_wicket_takers_query question
     else if is_death_pace question_lower then
       run_template w death_pace_query question
     else if is_death_strike_rate question_lower then
       run_template w death_strike_rate_query question
     else if is_season question_lower then
       year <- lift (extract_year known_years question_lower) ;;
       match year with
       | Some y =>
           if (y =? 0)%Z then ret None
           else run_template w (season_query y) question
       | None => ret None
       end
     else ret (Some _get_helpful_suggestions))
    (fun _ =>
       ret (Some ("Sorry, I encountered an error while processing your question. "
                    ++ "Please try a different query."))).

Definition ask (w : World) (question : string) : M (option string) :=
  query_code <- _get_query_from_llm w question ;;
  match query_code with
  | Some sql =>
      if is_empty sql then _try_enhanced_fallback_queries w question
      else
        result <- _execute_query w sql ;;
        match result with
        | None => _try_enhanced_fallback_queries w question
        | Some df =>
            if (Frame.len df =? 0)%nat then _try_enhanced_fallback_queries w question
            else
              formatted_result <- lift (_format_result result question) ;;
              ret (Some formatted_result)
        end
  | None => _try_enhanced_fallback_queries w question
  end.

End Formatting.

(** The year the season branch puts into its query. *)
Definition year_of (question_lower : string) : option Z :=
  match extract_year known_years question_lower with
  | Ok (Some y) => if (y =? 0)%Z then None else Some y
  | _ => None
  end.

(** The template the [if]/[elif] chain of [_try_enhanced_fallback_queries]
    picks for a lower-cased question, [None] for the help message. *)
Definition template_of (question_lower : string) : option string :=
  if is_top_run_scorers question_lower then Some top_run_scorers_query
  else if is_top_wicket_takers question_lower then Some top_wicket_takers_query
  else if is_death_pace question_lower then Some death_pace_query
  else if is_death_strike_rate question_lower then Some death_strike_rate_query
  else if is_season question_lower then option_map season_query (year_of question_lower)
  else None.

End IPLStatsEnhancedChatbot.

(** ** The methods with their console output *)

(** [print(text)] *)
Definition say (w : World) (text : string) : M unit := lift (print w text).

(** [f"{execution_time:.2f}"] after the statement just executed. *)
Definition elapsed (w : World) : M string :=
  fun log => (Ok (PyFmt.fixed false 2 (execution_time w log)), log).

(** [pd.read_sql(query_code, self.engine)] *)
Definition pd_read_sql (w : World) (query_code : string) : M DataFrame :=
  fun log => (read_sql w log query_code, (log ++ [query_code])%list).

(** The methods of [IPLStatsPostgresChatbot] with every [print] they call.
    A [print] inside a [try] block is caught with the rest of the block; a
    [print] in an [except] block or outside every [try] is not. *)
Module IPLStatsPostgresChatbotIO.
Import PyStr IPLStatsPostgresChatbot.

Section Printing.
Variable rt : Runtime.
Variable w : World.

(** Lines 101-165. *)
Definition _get_query_from_llm (user_question : string) : M (option string) :=
  try_catch
    (lift (let? content := llm w user_question in
           match content with
           | None => Raise AttributeError
           | Some text => let? query_code := Common.clean_reply text in Ok (Some query_code)
           end))
    (fun e =>
       _ <- say w ("Error getting query from LLM: " ++ exn_str rt e) ;;
       ret None).

(** Lines 167-184. *)
Definition _execute_query (query_code : string) : M (option DataFrame) :=
  try_catch
    (_ <- say w ("Executing query: " ++ query_code) ;;
     result_df <- pd_read_sql w query_code ;;
     execution_time <- elapsed w ;;
     _ <- say w ("Query executed in " ++ execution_time ++ "s, returned "
                   ++ PyFmt.digits (N.of_nat (Frame.len result_df)) ++ " rows") ;;
     ret (Some result_df))
    (fun e =>
       _ <- say w ("Error executing query: " ++ exn_str rt e) ;;
       _ <- say w ("Query: " ++ query_code) ;;
       ret None).

Definition run_template (query question : string) : M string :=
  result <- _execute_query query ;;
  lift (_format_result rt result question).

(** Lines 274-331. *)
Definition _try_fallback_queries (question : string) : M string :=
  let question_lower := str_lower rt question in
  try_catch
    (if any_in ["top"; "best"; "highest"] question_lower
        && any_in ["run"; "scorer"] question_lower then
       run_template top_run_scorers_query question
     else if any_in ["wicket"; "bowler"] question_lower
             && contains "top" question_lower then
       run_template top_wicket_takers_query question
     else if contains "death over" question_lower
             && contains "pace" question_lower then
       run_template death_pace_query question
     else if contains "death over" question_lower
             && contains "strike rate" question_lower then
       run_template death_strike_rate_query question
     else ret no_match_message)
    (fun e =>
       ret ("Sorry, I encountered an error while processing your question: "
              ++ exn_str rt e)).

(** Lines 333-353. *)
Definition ask (question : string) : M string :=
  _ <- say w (nl ++ "Question: " ++ question) ;;
  _ <- say w "Generating SQL query..." ;;
  query_code <- _get_query_from_llm question ;;
  match query_code with
  | Some sql =>
      if is_empty sql then _try_fallback_queries question
      else
        result <- _execute_query sql ;;
        match result with
        | None => _try_fallback_queries question
        | Some _ =>
            formatted_result <- lift (_format_result rt result question) ;;
            _ <- say w (nl ++ "Answer:" ++ nl ++ formatted_result) ;;
            ret formatted_result
        end
  | None => _try_fallback_queries question
  end.

End Printing.

End IPLStatsPostgresChatbotIO.

(** The methods of [IPLStatsEnhancedChatbot] with every [print] they
    call. *)
Module IPLStatsEnhancedChatbotIO.
Import PyStr IPLStatsEnhancedChatbot.

Section Printing.
Variable rt : Runtime.
Variable w : World.

(** Lines 122-219. *)
Definition _get_query_from_llm (user_question : string) : M (option string) :=
  try_catch
    (lift (let? content := llm w user_question in
           match content with
           | None => Raise AttributeError
           | Some text => let? query_code := Common.clean_reply text in Ok (Some query_code)
           end))
    (fun e =>
       _ <- say w ("Error getting query from LLM: " ++ exn_str rt e) ;;
       ret None).

(** Lines 221-236. *)
Definition _execute_query (query_code : string) : M (option DataFrame) :=
  try_catch
    (_ <- say w ("Executing query: " ++ slice_to 100 query_code ++ "...") ;;
     result_df <- pd_read_sql w query_code ;;
     execution_time <- elapsed w ;;
     _ <- say w ("Query executed in " ++ execution_time ++ "s, returned "
                   ++ PyFmt.digits (N.of_nat (Frame.len result_df)) ++ " rows") ;;
     ret (Some result_df))
    (fun e =>
       _ <- say w ("Error executing query: " ++ exn_str rt e) ;;
       ret None).

Definition run_template (query question : string) : M (option string) :=
  result <- _execute_query query ;;
  answer <- lift (_format_result rt result question) ;;
  ret (Some answer).

(** Lines 321-438. *)
Definition _try_enhanced_fallback_queries (question : string) : M (option string) :=
  let question_lower := str_lower rt question in
  try_catch
    (if is_top_run_scorers question_lower then
       run_template top_run_scorers_query question
     else if is_top_wicket_takers question_lower then
       run_template top_wicket_takers_query question
     else if is_death_pace question_lower then
       run_template death_pace_query question
     else if is_death_strike_rate question_lower then
       run_template death_strike_rate_query question
     else if is_season question_lower then
       year <- lift (extract_year known_years question_lower) ;;
       match year with
       | Some y =>
           if (y =? 0)%Z then ret None
           else run_template (season_query y) question
       | None => ret None
       end
     else ret (Some _get_helpful_suggestions))
    (fun _ =>
       ret (Some ("Sorry, I encountered an error while processing your question. "
                    ++ "Please try a different query."))).

(** Lines 462-483. *)
Definition ask (question : string) : M (option string) :=
  _ <- say w (nl ++ "Question: " ++ question) ;;
  _ <- say w "Generating SQL query..." ;;
  query_code <- _get_query_from_llm question ;;
  match query_code with
  | Some sql =>
      if is_empty sql then _try_enhanced_fallback_queries question
      else
        result <- _execute_query sql ;;
        match result with
        | None =>
            _ <- say w "Primary query failed, trying enhanced fallback..." ;;
            _try_enhanced_fallback_queries question
        | Some df =>
            if (Frame.len df =? 0)%nat then
              _ <- say w "Primary query failed, trying enhanced fallback..." ;;
              _try_enhanced_fallback_queries question
            else
              formatted_result <- lift (_format_result rt result question) ;;
              _ <- say w (nl ++ "Answer:" ++ nl ++ formatted_result) ;;
              ret (Some formatted_result)
        end
  | None => _try_enhanced_fallback_queries question
  end.

End Printing.

End IPLStatsEnhancedChatbotIO.

(** ** Sample inputs *)

Module Samples.

Definition runtime : Runtime :=
  {| float_str := fun _ => "float";
     float_comma := fun _ => "float";
     exn_str := fun _ => "error";
     str_lower := PyStr.lower;
     str_lower_ascii := fun _ _ => eq_refl |}.

(** The double 135.5, that is 271 / 2. *)
Definition f135_5 : spec_float := binary_normalize 53 1024 271 (-1) false.

(** The one-row table with batter "V Kohli", total_runs 1250 and
    strike_rate 135.5. *)
Definition kohli : DataFrame :=
  {| columns := ["batter"; "total_runs"; "strike_rate"];
     number_columns := ["total_runs"; "strike_rate"];
     records := [[VStr "V Kohli"; VInt 1250; VFloat f135_5]] |}.

(** A world whose LLM answers every question with [reply] and whose
    database is unreachable: every execution raises. *)
Definition db_down (reply : string) : World :=
  {| llm := fun _ => Ok (Some reply);
     read_sql := fun _ _ => Raise (ExternalError "connection refused");
     print := fun _ => Ok tt;
     execution_time := fun _ => S754_zero false |}.

(** A world whose LLM answers every question with [reply] and whose
    database returns an empty table for every statement. *)
Definition db_empty (reply : string) : World :=
  {| llm := fun _ => Ok (Some reply);
     read_sql := fun _ _ => Ok Frame.empty;
     print := fun _ => Ok tt;
     execution_time := fun _ => S754_zero false |}.

(** A reply with prose around a fenced block. *)
Definition fenced_reply : string :=
  String.concat PyStr.nl
    [ "Here is the query:"
    ; "```sql"
    ; "SELECT 1;"
    ; "```"
    ; "Enjoy!  "
    ].


(** The [str] that holds one lone surrogate, U+D800. *)
Definition lone_surrogate : string :=
  String (ascii_of_nat 237) (String (ascii_of_nat 160) (String (ascii_of_nat 128) EmptyString)).

(** The world [w] with a console that encodes in UTF-8: [print] raises
    [UnicodeEncodeError] on a text that holds a surrogate. *)
Definition utf8_console (w : World) : World :=
  {| llm := llm w;
     read_sql := read_sql w;
     print := fun text =>
                if PyStr.has_surrogate text then Raise UnicodeEncodeError else Ok tt;
     execution_time := execution_time w |}.

(** U+00A0, the no-break space. *)
Definition no_break_space : string :=
  String (ascii_of_nat 194) (String (ascii_of_nat 160) EmptyString).

End Samples.

(** ** Notions the properties are stated with *)

(** What [_get_query_from_llm] hands to [ask]. *)
Definition synthesized (w : World) (question : string) : option string :=
  match llm w question with
  | Ok (Some text) =>
      match Common.clean_reply text with
      | Ok query_code => Some query_code
      | Raise _ => None
      end
  | _ => None
  end.

(** What [_execute_query] hands back after the statements of [log]. *)
Definition executed (w : World) (log : Log) (query_code : string)
  : option DataFrame :=
  match read_sql w log query_code with
  | Ok df => Some df
  | Raise _ => None
  end.

(** The answer a template gives once its execution has returned [result]. *)
Definition baseline_answer (rt : Runtime) (result : option DataFrame) (question : string)
  : string :=
  match IPLStatsPostgresChatbot._format_result rt result question with
  | Ok text => text
  | Raise _ => EmptyString
  end.

Definition enhanced_answer (rt : Runtime) (result : option DataFrame) (question : string)
  : string :=
  match IPLStatsEnhancedChatbot._format_result rt result question with
  | Ok text => text
  | Raise _ => EmptyString
  end.

(** The shape of a string at its ends, and a separator without its last
    character. *)
Definition starts_with (p : ascii -> bool) (s : string) : bool :=
  match s with
  | EmptyString => false
  | String c _ => p c
  end.

Fixpoint ends_with (p : ascii -> bool) (s : string) : bool :=
  match s with
  | EmptyString => false
  | String c EmptyString => p c
  | String _ s' => ends_with p s'
  end.

Fixpoint all_but_last (sep : string) : string :=
  match sep with
  | EmptyString => EmptyString
  | String _ EmptyString => EmptyString
  | String c sep' => String c (all_but_last sep')
  end.




(** The season template of the latest known year that occurs in the
    question. *)
Definition latest_season (years : list (string * Z)) (question_lower : string)
  : option string :=
  match find (fun y => PyStr.contains (fst y) question_lower) years with
  | Some y => Some (IPLStatsEnhancedChatbot.season_query (snd y))
  | None => None
  end.

(** A column the baseline formatter knows as the main statistic. *)
Definition has_known_statistic (df : DataFrame) : bool :=
  Frame.has_column "total_runs" df || Frame.has_column "runs" df
  || Frame.has_column "wickets" df || Frame.has_column "death_runs" df
  || Frame.has_column "strike_rate" df || Frame.has_column "death_sr" df.

(** The rank marker of row [i], counted from 1. *)
Definition enhanced_marker (i : nat) : string :=
  if (i =? 1)%nat then Common.medal_1
  else if (i =? 2)%nat then Common.medal_2
  else if (i =? 3)%nat then Common.medal_3
  else "**" ++ PyFmt.width2 i ++ ".**".

Definition baseline_marker (i : nat) : string :=
  if (i =? 1)%nat then Common.medal_1
  else if (i =? 2)%nat then Common.medal_2
  else if (i =? 3)%nat then Common.medal_3
  else PyFmt.width2 i ++ ".".

Definition join (lines : list string) : string := fold_right append EmptyString lines.

(** The note on the rows left out, when the table has more than [shown]. *)
Definition more_results (shown : nat) (df : DataFrame) : string :=
  if (shown <? Frame.len df)%nat then
    PyStr.nl ++ "... and " ++ PyFmt.digits (N.of_nat (Frame.len df - shown))
      ++ " more results"
  else EmptyString.

(** ** The database connection of [refresh_materialized_views] *)

(** [refresh_materialized_views] talks to the database through a
    connection of the engine, not through [pd.read_sql]: the state threaded
    through it is what the connection was asked to do. *)
Module Db.

Inductive event : Type :=
| Execute (statement : string)
| Commit.

Definition Trace : Type := list event.

(** [engine.connect()] entering the [with] block, [conn.execute(text(s))],
    [conn.commit()] and the exit of the [with] block, each after the events
    so far; each returns or raises. *)
Record Engine : Type := {
  connect : Trace -> outcome unit;
  execute : Trace -> string -> outcome unit;
  commit : Trace -> outcome unit;
  close : Trace -> outcome unit
}.

Definition T (A : Type) : Type := Trace -> outcome A * Trace.

Definition ret {A : Type} (a : A) : T A := fun trace => (Ok a, trace).

Definition bind {A B : Type} (m : T A) (k : A -> T B) : T B :=
  fun trace =>
    match m trace with
    | (Ok a, trace') => k a trace'
    | (Raise e, trace') => (Raise e, trace')
    end.

(** [try: body except Exception as e: handler e] *)
Definition try_catch {A : Type} (body : T A) (handler : exn -> T A) : T A :=
  fun trace =>
    match body trace with
    | (Ok a, trace') => (Ok a, trace')
    | (Raise e, trace') => handler e trace'
    end.

Definition conn_execute (engine : Engine) (statement : string) : T unit :=
  fun trace => (execute engine trace statement, (trace ++ [Execute statement])%list).

Definition conn_commit (engine : Engine) : T unit :=
  fun trace => (commit engine trace, (trace ++ [Commit])%list).

(** [with engine.connect() as conn: body]: the exit runs whether the body
    returns or raises, and an exception of the exit replaces the one of the
    body. *)
Definition with_connection {A : Type} (engine : Engine) (body : T A) : T A :=
  fun trace =>
    match connect engine trace with
    | Raise e => (Raise e, trace)
    | Ok _ =>
        match body trace with
        | (Ok a, trace') =>
            (match close engine trace' with
             | Ok _ => Ok a
             | Raise e => Raise e
             end, trace')
        | (Raise e, trace') =>
            (match close engine trace' with
             | Ok _ => Raise e
             | Raise e' => Raise e'
             end, trace')
        end
    end.

End Db.

(** [IPLStatsPostgresChatbot.refresh_materialized_views]
    (src/ipl_chatbot_postgres.py 355-365). *)
Module PostgresViews.

Definition views : list string :=
  [ "REFRESH MATERIALIZED VIEW mv_top_run_scorers";
    "REFRESH MATERIALIZED VIEW mv_top_bowlers";
    "REFRESH MATERIALIZED VIEW mv_death_overs_batters" ].

Definition refresh_materialized_views (engine : Db.Engine) : Db.T unit :=
  Db.try_catch
    (Db.with_connection engine
       (Db.bind (Db.conn_execute engine "REFRESH MATERIALIZED VIEW mv_top_run_scorers")
          (fun _ =>
       Db.bind (Db.conn_execute engine "REFRESH MATERIALIZED VIEW mv_top_bowlers")
          (fun _ =>
       Db.bind (Db.conn_execute engine "REFRESH MATERIALIZED VIEW mv_death_overs_batters")
          (fun _ =>
       Db.conn_commit engine)))))
    (fun _ => Db.ret tt).

End PostgresViews.

(** [IPLStatsEnhancedChatbot.refresh_materialized_views]
    (src/ipl_chatbot_enhanced.py 485-494). *)
Module EnhancedViews.

Definition views : list string :=
  [ "REFRESH MATERIALIZED VIEW IF EXISTS batting_summary;";
    "REFRESH MATERIALIZED VIEW IF EXISTS bowling_summary;" ].

Definition refresh_materialized_views (engine : Db.Engine) : Db.T unit :=
  Db.try_catch
    (Db.with_connection engine
       (Db.bind (Db.conn_execute engine "REFRESH MATERIALIZED VIEW IF EXISTS batting_summary;")
          (fun _ =>
       Db.bind (Db.conn_execute engine "REFRESH MATERIALIZED VIEW IF EXISTS bowling_summary;")
          (fun _ =>
       Db.conn_commit engine))))
    (fun _ => Db.ret tt).

End EnhancedViews.

(** ** The web endpoints (src/app_postgres.py) *)

Module AppPostgres.
Import PyStr.

(** What [request.get_json()] parses the body into.  The members of an
    object are the items of the [dict], whose keys are distinct. *)
#[warnings="-register-all"]
Inductive json : Type :=
| JNull
| JBool (b : bool)
| JInt (z : Z)
| JFloat (f : spec_float)
| JString (s : string)
| JArray (items : list json)
| JObject (members : list (string * json)).

(** What a view function returns: the object handed to [jsonify] and the
    status code. *)
Record Response : Type := {
  payload : list (string * json);
  status : nat
}.

Definition jsonify (payload : list (string * json)) (status : nat) : Response :=
  {| payload := payload; status := status |}.

Fixpoint member (key : string) (members : list (string * json)) : option json :=
  match members with
  | [] => None
  | (k, v) :: members' => if String.eqb key k then Some v else member key members'
  end.

(** [data.get(key, default)]: only a [dict] has the method. *)
Definition dict_get (data : json) (key : string) (default : json) : outcome json :=
  match data with
  | JObject members =>
      Ok (match member key members with
          | Some v => v
          | None => default
          end)
  | _ => Raise AttributeError
  end.

(** [v.strip()]: only a [str] has the method. *)
Definition str_strip (v : json) : outcome string :=
  match v with
  | JString s => Ok (strip s)
  | _ => Raise AttributeError
  end.

(** The answer of [ask] as a JSON value: [None] becomes [null]. *)
Definition of_answer (answer : option string) : json :=
  match answer with
  | Some text => JString text
  | None => JNull
  end.

Definition not_initialized : string :=
  "PostgreSQL chatbot not initialized. Please check the database connection.".
Definition enter_valid_question : string := "Please enter a valid question.".

(** [ask_question] (lines 29-54).  [chatbot] is the module's global: the
    instance, given by the world it talks to, or [None] when its
    construction failed.  [get_json] is what [request.get_json()] does on
    the request. *)
Definition ask_question (rt : Runtime) (chatbot : option World) (get_json : outcome json)
  : M Response :=
  match chatbot with
  | None => ret (jsonify [("error", JString not_initialized)] 500)
  | Some w =>
      try_catch
        (data <- lift get_json ;;
         field <- lift (dict_get data "question" (JString EmptyString)) ;;
         question <- lift (str_strip field) ;;
         if is_empty question then
           ret (jsonify [("error", JString enter_valid_question)] 400)
         else
           answer <- IPLStatsEnhancedChatbotIO.ask rt w question ;;
           ret (jsonify [("question", JString question); ("answer", of_answer answer)] 200))
        (fun e =>
           ret (jsonify [("error", JString ("Error processing question: " ++ exn_str rt e))]
                  500))
  end.



End AppPostgres.

(** ** The command-line chat loop (src/ipl_chatbot_postgres.py, [main]) *)

Module PostgresCli.
Import PyStr.

(** What one call of [input()] does: it returns a line, raises an
    [Exception] ([EOFError] at the end of the input), or is interrupted
    from the keyboard.  Interrupts are taken to arrive while the program
    waits for input. *)
Inductive keyboard : Type :=
| Line (text : string)
| Fails (e : exn)
| Interrupt.

(** Where [main] is after the inputs it was given: it has returned, or it
    is waiting in [input()] again. *)
Inductive progress : Type :=
| Returned
| Waiting.

Definition goodbyes : list string := ["quit"; "exit"; "bye"].

Definition thanks : string := "👋 Thanks for using IPL Stats PostgreSQL Chatbot!".

(** The world of one round of the loop: the hosted model is sampled anew
    at every call, so each round has its own replies. *)
Definition at_round (w : World) (reply : string -> outcome (option string)) : World :=
  {| llm := reply;
     read_sql := read_sql w;
     print := print w;
     execution_time := execution_time w |}.

(** The [while True] loop of lines 398-417, one input per round.  The
    [try] holds the whole round; [break] leaves the loop. *)
Fixpoint chat_loop (rt : Runtime) (w : World)
    (replies : nat -> string -> outcome (option string)) (round : nat)
    (inputs : list keyboard) : M progress :=
  match inputs with
  | [] => ret Waiting
  | Interrupt :: _ =>
      _ <- say w (nl ++ thanks) ;;
      ret Returned
  | Fails e :: inputs' =>
      _ <- say w ("❌ Error: " ++ exn_str rt e) ;;
      chat_loop rt w replies (S round) inputs'
  | Line text :: inputs' =>
      let question := strip text in
      leave <- try_catch
                 (if existsb (String.eqb (str_lower rt question)) goodbyes then
                    _ <- say w thanks ;;
                    ret true
                  else if is_empty question then
                    _ <- say w "Please enter a valid question." ;;
                    ret false
                  else
                    _ <- IPLStatsPostgresChatbotIO.ask rt (at_round w (replies round))
                           question ;;
                    ret false)
                 (fun e =>
                    _ <- say w ("❌ Error: " ++ exn_str rt e) ;;
                    ret false) ;;
      if leave then ret Returned else chat_loop rt w replies (S round) inputs'
  end.

(** [main] (lines 367-417): the two environment variables, the
    construction of the instance, then the loop. *)
Definition main (rt : Runtime) (w : World)
    (replies : nat -> string -> outcome (option string))
    (DATABASE_URL GROQ_API_KEY : option string)
    (construct : outcome unit) (inputs : list keyboard) : M progress :=
  _ <- say w "🏏 IPL Stats PostgreSQL Chatbot" ;;
  _ <- say w (PyFmt.repeat_char "=" 50) ;;
  if negb (truthy DATABASE_URL) || negb (truthy GROQ_API_KEY) then
    _ <- say w "❌ Error: Missing required environment variables" ;;
    _ <- say w "Please create a .env file with DATABASE_URL and GROQ_API_KEY" ;;
    ret Returned
  else
    built <- try_catch
               (_ <- lift construct ;;
                _ <- say w "✅ PostgreSQL Chatbot initialized successfully!" ;;
                ret true)
               (fun e =>
                  _ <- say w ("❌ Error initializing chatbot: " ++ exn_str rt e) ;;
                  ret false) ;;
    if built then
      _ <- say w (nl ++ "PostgreSQL-powered queries - Much faster performance! 🚀") ;;
      _ <- say w "You can ask questions like:" ;;
      _ <- say w "- Who are the top 10 run scorers in IPL history?" ;;
      _ <- say w "- Best batters vs pace bowling in death overs" ;;
      _ <- say w "- Top wicket takers in IPL 2024" ;;
      _ <- say w "- Strike rate in death overs" ;;
      _ <- say w (nl ++ "Type 'quit' to exit" ++ nl) ;;
      chat_loop rt w replies 0 inputs
    else ret Returned.

End PostgresCli.

(** ** The chat page (src/streamlit_app.py) *)

Module StreamlitApp.
Import PyStr.



End StreamlitApp.

(** The answer of [ask] of the enhanced class, a string in every run. *)
Definition enhanced_reply (rt : Runtime) (w : World) (question : string) (log : Log)
  : string :=
  match fst (IPLStatsEnhancedChatbot.ask rt w question log) with
  | Ok (Some answer) => answer
  | _ => EmptyString
  end.

Definition baseline_reply (rt : Runtime) (w : World) (question : string) (log : Log)
  : string :=
  match fst (IPLStatsPostgresChatbot.ask rt w question log) with
  | Ok answer => answer
  | Raise _ => EmptyString
  end.

(** The question a request to [/ask] carries: the stripped text of the
    member "question" of a JSON object, when it is a string that is not
    blank. *)
Definition question_of (get_json : outcome AppPostgres.json) : option string :=
  match get_json with
  | Ok (AppPostgres.JObject members) =>
      match AppPostgres.member "question" members with
      | Some (AppPostgres.JString text) =>
          if PyStr.is_empty (PyStr.strip text) then None else Some (PyStr.strip text)
      | _ => None
      end
  | _ => None
  end.

(** A request whose question is missing or blank. *)
Definition blank_question (get_json : outcome AppPostgres.json) : bool :=
  match get_json with
  | Ok (AppPostgres.JObject members) =>
      match AppPostgres.member "question" members with
      | Some (AppPostgres.JString text) => PyStr.is_empty (PyStr.strip text)
      | Some _ => false
      | None => true
      end
  | _ => false
  end.

(** An input that ends the chat loop. *)
Definition says_goodbye (rt : Runtime) (k : PostgresCli.keyboard) : bool :=
  match k with
  | PostgresCli.Line text =>
      existsb (String.eqb (str_lower rt (PyStr.strip text))) PostgresCli.goodbyes
  | PostgresCli.Interrupt => true
  | PostgresCli.Fails _ => false
  end.

(** The questions among the inputs up to the first goodbye, each with the
    round of the loop that asks it. *)
Fixpoint questions (rt : Runtime) (round : nat) (inputs : list PostgresCli.keyboard)
  : list (nat * string) :=
  match inputs with
  | [] => []
  | k :: inputs' =>
      if says_goodbye rt k then []
      else
        match k with
        | PostgresCli.Line text =>
            if PyStr.is_empty (PyStr.strip text) then questions rt (S round) inputs'
            else (round, PyStr.strip text) :: questions rt (S round) inputs'
        | _ => questions rt (S round) inputs'
        end
  end.

(** Asking the questions one after the other, each with the replies of its
    round. *)
Definition ask_each (rt : Runtime) (w : World)
    (replies : nat -> string -> outcome (option string))
    (qs : list (nat * string)) (log : Log) : Log :=
  fold_left
    (fun l q =>
       snd (IPLStatsPostgresChatbotIO.ask rt (PostgresCli.at_round w (replies (fst q)))
              (snd q) l))
    qs log.




(** * Properties *)

(** ** The methods wrapped in [try]/[except] *)

Section Wrapped.
Variable rt : Runtime.
Variable w : World.

Lemma get_query_returns (question : string) (log : Log) :
  Common._get_query_from_llm w question log = (Ok (synthesized w question), log).
Proof.
  unfold Common._get_query_from_llm, try_catch, lift, ret, synthesized.
  destruct (llm w question) as [[text|]|e]; simpl; try reflexivity.
  destruct (Common.clean_reply text); reflexivity.
Qed.

Lemma execute_query_returns (query_code : string) (log : Log) :
  Common._execute_query w query_code log
  = (Ok (executed w log query_code), (log ++ [query_code])%list).
Proof.
  unfold Common._execute_query, try_catch, ret, executed.
  destruct (read_sql w log query_code); reflexivity.
Qed.

Lemma try_pure_returns {A : Type} (body : outcome A) (handler : exn -> outcome A) :
  (forall e, exists a, handler e = Ok a) -> exists a, try_pure body handler = Ok a.
Proof.
  intros Hh. destruct body as [a|e]; simpl; [now exists a | apply Hh].
Qed.

Lemma baseline_format_dataframe_returns (df : DataFrame) (question_lower : string) :
  exists text, IPLStatsPostgresChatbot._format_dataframe rt df question_lower = Ok text.
Proof.
  unfold IPLStatsPostgresChatbot._format_dataframe.
  apply try_pure_returns. intros e. eexists. reflexivity.
Qed.

Lemma baseline_format_result_returns (result : option DataFrame) (question : string) :
  exists text, IPLStatsPostgresChatbot._format_result rt result question = Ok text.
Proof.
  unfold IPLStatsPostgresChatbot._format_result.
  destruct result as [df|]; [|eexists; reflexivity].
  destruct (Frame.len df =? 0)%nat; [eexists; reflexivity|].
  apply try_pure_returns. intros e. eexists. reflexivity.
Qed.

Lemma enhanced_format_result_returns (result : option DataFrame) (question : string) :
  exists text, IPLStatsEnhancedChatbot._format_result rt result question = Ok text.
Proof.
  unfold IPLStatsEnhancedChatbot._format_result.
  destruct result as [df|]; [|eexists; reflexivity].
  destruct (Frame.len df =? 0)%nat; [eexists; reflexivity|].
  apply try_pure_returns. intros e. eexists. reflexivity.
Qed.

Lemma baseline_format_result_answer (result : option DataFrame) (question : string) :
  IPLStatsPostgresChatbot._format_result rt result question
  = Ok (baseline_answer rt result question).
Proof.
  unfold baseline_answer.
  destruct (baseline_format_result_returns result question) as [text ->]. reflexivity.
Qed.

Lemma enhanced_format_result_answer (result : option DataFrame) (question : string) :
  IPLStatsEnhancedChatbot._format_result rt result question
  = Ok (enhanced_answer rt result question).
Proof.
  unfold enhanced_answer.
  destruct (enhanced_format_result_returns result question) as [text ->]. reflexivity.
Qed.

Lemma baseline_run_template (query question : string) (log : Log) :
  IPLStatsPostgresChatbot.run_template rt w query question log
  = (Ok (baseline_answer rt (executed w log query) question), (log ++ [query])%list).
Proof.
  unfold IPLStatsPostgresChatbot.run_template, bind,
    IPLStatsPostgresChatbot._execute_query.
  rewrite execute_query_returns. unfold lift.
  now rewrite baseline_format_result_answer.
Qed.

Lemma enhanced_run_template (query question : string) (log : Log) :
  IPLStatsEnhancedChatbot.run_template rt w query question log
  = (Ok (Some (enhanced_answer rt (executed w log query) question)), (log ++ [query])%list).
Proof.
  unfold IPLStatsEnhancedChatbot.run_template, bind,
    IPLStatsEnhancedChatbot._execute_query.
  rewrite execute_query_returns. unfold lift.
  now rewrite enhanced_format_result_answer.
Qed.

End Wrapped.

(** ** The fallback resolvers as template selection *)

Section Resolver.
Variable rt : Runtime.
Variable w : World.

Lemma baseline_fallback_selects (question : string) (log : Log) :
  IPLStatsPostgresChatbot._try_fallback_queries rt w question log
  = match IPLStatsPostgresChatbot.template_of (str_lower rt question) with
    | Some template => IPLStatsPostgresChatbot.run_template rt w template question log
    | None => (Ok IPLStatsPostgresChatbot.no_match_message, log)
    end.
Proof.
  unfold IPLStatsPostgresChatbot._try_fallback_queries,
    IPLStatsPostgresChatbot.template_of, try_catch.
  repeat match goal with
         | |- context [if ?c then _ else _] => destruct c
         end;
    rewrite ?baseline_run_template; reflexivity.
Qed.

(** Each known year reads back as the number it spells. *)
Lemma extract_year_known (question_lower : string) :
  IPLStatsEnhancedChatbot.is_season question_lower = true ->
  exists y,
    IPLStatsEnhancedChatbot.extract_year IPLStatsEnhancedChatbot.known_years question_lower
    = Ok (Some y)
    /\ List.In y [2024; 2023; 2022; 2021]%Z
    /\ PyStr.contains (PyFmt.str_int y) question_lower = true.
Proof.
  unfold IPLStatsEnhancedChatbot.is_season, PyStr.any_in,
    IPLStatsEnhancedChatbot.known_years.
  cbn [existsb IPLStatsEnhancedChatbot.extract_year].
  destruct (PyStr.contains "2024" question_lower) eqn:E24.
  { intros _. exists 2024%Z. repeat split; [simpl; tauto | exact E24]. }
  destruct (PyStr.contains "2023" question_lower) eqn:E23.
  { intros _. exists 2023%Z. repeat split; [simpl; tauto | exact E23]. }
  destruct (PyStr.contains "2022" question_lower) eqn:E22.
  { intros _. exists 2022%Z. repeat split; [simpl; tauto | exact E22]. }
  destruct (PyStr.contains "2021" question_lower) eqn:E21.
  { intros _. exists 2021%Z. repeat split; [simpl; tauto | exact E21]. }
  discriminate.
Qed.

Lemma extract_year_unknown (question_lower : string) :
  IPLStatsEnhancedChatbot.is_season question_lower = false ->
  IPLStatsEnhancedChatbot.extract_year IPLStatsEnhancedChatbot.known_years question_lower
  = Ok None.
Proof.
  unfold IPLStatsEnhancedChatbot.is_season, PyStr.any_in,
    IPLStatsEnhancedChatbot.known_years.
  cbn [existsb IPLStatsEnhancedChatbot.extract_year].
  destruct (PyStr.contains "2024" question_lower); [discriminate|].
  destruct (PyStr.contains "2023" question_lower); [discriminate|].
  destruct (PyStr.contains "2022" question_lower); [discriminate|].
  destruct (PyStr.contains "2021" question_lower); [discriminate|].
  reflexivity.
Qed.

Lemma year_of_season (question_lower : string) :
  IPLStatsEnhancedChatbot.is_season question_lower = true ->
  exists y,
    IPLStatsEnhancedChatbot.extract_year IPLStatsEnhancedChatbot.known_years question_lower
    = Ok (Some y)
    /\ (y =? 0)%Z = false
    /\ IPLStatsEnhancedChatbot.year_of question_lower = Some y.
Proof.
  intros Hs. destruct (extract_year_known _ Hs) as (y & Hy & Hin & _).
  exists y. unfold IPLStatsEnhancedChatbot.year_of. rewrite Hy.
  assert (Hnz : (y =? 0)%Z = false).
  { simpl in Hin. destruct Hin as [<-|[<-|[<-|[<-|[]]]]]; reflexivity. }
  rewrite Hnz. auto.
Qed.

Lemma enhanced_fallback_selects (question : string) (log : Log) :
  IPLStatsEnhancedChatbot._try_enhanced_fallback_queries rt w question log
  = match IPLStatsEnhancedChatbot.template_of (str_lower rt question) with
    | Some template => IPLStatsEnhancedChatbot.run_template rt w template question log
    | None => (Ok (Some IPLStatsEnhancedChatbot._get_helpful_suggestions), log)
    end.
Proof.
  unfold IPLStatsEnhancedChatbot._try_enhanced_fallback_queries,
    IPLStatsEnhancedChatbot.template_of, try_catch.
  destruct (IPLStatsEnhancedChatbot.is_top_run_scorers _);
    [now rewrite enhanced_run_template|].
  destruct (IPLStatsEnhancedChatbot.is_top_wicket_takers _);
    [now rewrite enhanced_run_template|].
  destruct (IPLStatsEnhancedChatbot.is_death_pace _);
    [now rewrite enhanced_run_template|].
  destruct (IPLStatsEnhancedChatbot.is_death_strike_rate _);
    [now rewrite enhanced_run_template|].
  destruct (IPLStatsEnhancedChatbot.is_season _) eqn:Hs; [|reflexivity].
  destruct (year_of_season _ Hs) as (y & Hy & Hnz & Hyear).
  rewrite Hyear. unfold bind, lift. rewrite Hy, Hnz. simpl option_map. cbv iota beta.
  now rewrite enhanced_run_template.
Qed.

Lemma baseline_fallback_returns (question : string) (log : Log) :
  exists answer log',
    IPLStatsPostgresChatbot._try_fallback_queries rt w question log = (Ok answer, log').
Proof.
  rewrite baseline_fallback_selects.
  destruct (IPLStatsPostgresChatbot.template_of _).
  - rewrite baseline_run_template. eauto.
  - eauto.
Qed.

Lemma enhanced_fallback_returns (question : string) (log : Log) :
  exists answer log',
    IPLStatsEnhancedChatbot._try_enhanced_fallback_queries rt w question log
    = (Ok (Some answer), log').
Proof.
  rewrite enhanced_fallback_selects.
  destruct (IPLStatsEnhancedChatbot.template_of _).
  - rewrite enhanced_run_template. eauto.
  - eauto.
Qed.

(** [ask] once [_get_query_from_llm] and [_execute_query] are resolved. *)
Lemma baseline_ask_unfolds (question : string) (log : Log) :
  IPLStatsPostgresChatbot.ask rt w question log
  = match synthesized w question with
    | Some sql =>
        if PyStr.is_empty sql then
          IPLStatsPostgresChatbot._try_fallback_queries rt w question log
        else
          match executed w log sql with
          | None =>
              IPLStatsPostgresChatbot._try_fallback_queries rt w question (log ++ [sql])%list
          | Some df => (Ok (baseline_answer rt (Some df) question), (log ++ [sql])%list)
          end
    | None => IPLStatsPostgresChatbot._try_fallback_queries rt w question log
    end.
Proof.
  unfold IPLStatsPostgresChatbot.ask, bind, IPLStatsPostgresChatbot._get_query_from_llm.
  rewrite get_query_returns.
  destruct (synthesized w question) as [sql|]; [|reflexivity].
  destruct (PyStr.is_empty sql); [reflexivity|].
  unfold IPLStatsPostgresChatbot._execute_query. rewrite execute_query_returns.
  destruct (executed w log sql) as [df|]; [|reflexivity].
  unfold lift, ret. now rewrite baseline_format_result_answer.
Qed.

Lemma enhanced_ask_unfolds (question : string) (log : Log) :
  IPLStatsEnhancedChatbot.ask rt w question log
  = match synthesized w question with
    | Some sql =>
        if PyStr.is_empty sql then
          IPLStatsEnhancedChatbot._try_enhanced_fallback_queries rt w question log
        else
          match executed w log sql with
          | None =>
              IPLStatsEnhancedChatbot._try_enhanced_fallback_queries rt w question
                (log ++ [sql])%list
          | Some df =>
              if (Frame.len df =? 0)%nat then
                IPLStatsEnhancedChatbot._try_enhanced_fallback_queries rt w question
                  (log ++ [sql])%list
              else (Ok (Some (enhanced_answer rt (Some df) question)), (log ++ [sql])%list)
          end
    | None => IPLStatsEnhancedChatbot._try_enhanced_fallback_queries rt w question log
    end.
Proof.
  unfold IPLStatsEnhancedChatbot.ask, bind, IPLStatsEnhancedChatbot._get_query_from_llm.
  rewrite get_query_returns.
  destruct (synthesized w question) as [sql|]; [|reflexivity].
  destruct (PyStr.is_empty sql); [reflexivity|].
  unfold IPLStatsEnhancedChatbot._execute_query. rewrite execute_query_returns.
  destruct (executed w log sql) as [df|]; [|reflexivity].
  destruct (Frame.len df =? 0)%nat; [reflexivity|].
  unfold lift, ret. now rewrite enhanced_format_result_answer.
Qed.

End Resolver.

(** ** C1: [ask] always returns a string *)

Lemma baseline_ask_reply (rt : Runtime) (w : World) (question : string) (log : Log) :
  IPLStatsPostgresChatbot.ask rt w question log
  = (Ok (baseline_reply rt w question log),
     snd (IPLStatsPostgresChatbot.ask rt w question log)).
Proof.
  unfold baseline_reply.
  assert (H : exists answer log',
             IPLStatsPostgresChatbot.ask rt w question log = (Ok answer, log')).
  { rewrite baseline_ask_unfolds.
    destruct (synthesized w question) as [sql|];
      [|apply baseline_fallback_returns].
    destruct (PyStr.is_empty sql); [apply baseline_fallback_returns|].
    destruct (executed w log sql) as [df|]; [eauto | apply baseline_fallback_returns]. }
  destruct H as (answer & log' & ->). reflexivity.
Qed.

Lemma enhanced_ask_reply (rt : Runtime) (w : World) (question : string) (log : Log) :
  IPLStatsEnhancedChatbot.ask rt w question log
  = (Ok (Some (enhanced_reply rt w question log)),
     snd (IPLStatsEnhancedChatbot.ask rt w question log)).
Proof.
  unfold enhanced_reply.
  assert (H : exists answer log',
             IPLStatsEnhancedChatbot.ask rt w question log = (Ok (Some answer), log')).
  { rewrite enhanced_ask_unfolds.
    destruct (synthesized w question) as [sql|];
      [|apply enhanced_fallback_returns].
    destruct (PyStr.is_empty sql); [apply enhanced_fallback_returns|].
    destruct (executed w log sql) as [df|]; [|apply enhanced_fallback_returns].
    destruct (Frame.len df =? 0)%nat; [apply enhanced_fallback_returns | eauto]. }
  destruct H as (answer & log' & ->). reflexivity.
Qed.

(** ** The console *)

Section Quiet.
Variable rt : Runtime.
Variable w : World.
Hypothesis accepts : forall text : string, print w text = Ok tt.

Lemma say_accepted (text : string) (log : Log) : say w text log = (Ok tt, log).
Proof.
  unfold say, lift. now rewrite accepts.
Qed.

Lemma baseline_get_query_accepted (question : string) (log : Log) :
  IPLStatsPostgresChatbotIO._get_query_from_llm rt w question log
  = (Ok (synthesized w question), log).
Proof.
  unfold IPLStatsPostgresChatbotIO._get_query_from_llm, try_catch, lift, bind, synthesized.
  destruct (llm w question) as [[text|]|e]; cbn [obind]; rewrite ?say_accepted;
    try reflexivity.
  destruct (Common.clean_reply text); cbn [obind]; rewrite ?say_accepted; reflexivity.
Qed.

Lemma enhanced_get_query_accepted (question : string) (log : Log) :
  IPLStatsEnhancedChatbotIO._get_query_from_llm rt w question log
  = (Ok (synthesized w question), log).
Proof.
  unfold IPLStatsEnhancedChatbotIO._get_query_from_llm, try_catch, lift, bind, synthesized.
  destruct (llm w question) as [[text|]|e]; cbn [obind]; rewrite ?say_accepted;
    try reflexivity.
  destruct (Common.clean_reply text); cbn [obind]; rewrite ?say_accepted; reflexivity.
Qed.

Lemma baseline_execute_accepted (query_code : string) (log : Log) :
  IPLStatsPostgresChatbotIO._execute_query rt w query_code log
  = (Ok (executed w log query_code), (log ++ [query_code])%list).
Proof.
  unfold IPLStatsPostgresChatbotIO._execute_query, try_catch, bind, pd_read_sql, elapsed,
    executed.
  rewrite say_accepted.
  destruct (read_sql w log query_code) as [df|e]; rewrite !say_accepted; reflexivity.
Qed.

Lemma enhanced_execute_accepted (query_code : string) (log : Log) :
  IPLStatsEnhancedChatbotIO._execute_query rt w query_code log
  = (Ok (executed w log query_code), (log ++ [query_code])%list).
Proof.
  unfold IPLStatsEnhancedChatbotIO._execute_query, try_catch, bind, pd_read_sql, elapsed,
    executed.
  rewrite say_accepted.
  destruct (read_sql w log query_code) as [df|e]; rewrite !say_accepted; reflexivity.
Qed.

Lemma baseline_run_template_accepted (query question : string) (log : Log) :
  IPLStatsPostgresChatbotIO.run_template rt w query question log
  = IPLStatsPostgresChatbot.run_template rt w query question log.
Proof.
  unfold IPLStatsPostgresChatbotIO.run_template, IPLStatsPostgresChatbot.run_template, bind,
    IPLStatsPostgresChatbot._execute_query.
  now rewrite baseline_execute_accepted, execute_query_returns.
Qed.

Lemma enhanced_run_template_accepted (query question : string) (log : Log) :
  IPLStatsEnhancedChatbotIO.run_template rt w query question log
  = IPLStatsEnhancedChatbot.run_template rt w query question log.
Proof.
  unfold IPLStatsEnhancedChatbotIO.run_template, IPLStatsEnhancedChatbot.run_template, bind,
    IPLStatsEnhancedChatbot._execute_query.
  now rewrite enhanced_execute_accepted, execute_query_returns.
Qed.

Lemma baseline_fallback_accepted (question : string) (log : Log) :
  IPLStatsPostgresChatbotIO._try_fallback_queries rt w question log
  = IPLStatsPostgresChatbot._try_fallback_queries rt w question log.
Proof.
  unfold IPLStatsPostgresChatbotIO._try_fallback_queries,
    IPLStatsPostgresChatbot._try_fallback_queries, try_catch.
  repeat match goal with
         | |- context [if ?c then _ else _] => destruct c
         end;
    rewrite ?baseline_run_template_accepted; reflexivity.
Qed.

Lemma enhanced_fallback_accepted (question : string) (log : Log) :
  IPLStatsEnhancedChatbotIO._try_enhanced_fallback_queries rt w question log
  = IPLStatsEnhancedChatbot._try_enhanced_fallback_queries rt w question log.
Proof.
  unfold IPLStatsEnhancedChatbotIO._try_enhanced_fallback_queries,
    IPLStatsEnhancedChatbot._try_enhanced_fallback_queries, try_catch.
  destruct (IPLStatsEnhancedChatbot.is_top_run_scorers _);
    [now rewrite enhanced_run_template_accepted|].
  destruct (IPLStatsEnhancedChatbot.is_top_wicket_takers _);
    [now rewrite enhanced_run_template_accepted|].
  destruct (IPLStatsEnhancedChatbot.is_death_pace _);
    [now rewrite enhanced_run_template_accepted|].
  destruct (IPLStatsEnhancedChatbot.is_death_strike_rate _);
    [now rewrite enhanced_run_template_accepted|].
  destruct (IPLStatsEnhancedChatbot.is_season _); [|reflexivity].
  unfold bind, lift.
  destruct (IPLStatsEnhancedChatbot.extract_year _ _) as [[y|]|e]; try reflexivity.
  destruct (y =? 0)%Z; [reflexivity|].
  now rewrite enhanced_run_template_accepted.
Qed.

(** With a console that accepts every text, the methods with their output
    return what the methods without it return, and execute the same
    statements. *)
Lemma baseline_ask_accepted (question : string) (log : Log) :
  IPLStatsPostgresChatbotIO.ask rt w question log
  = IPLStatsPostgresChatbot.ask rt w question log.
Proof.
  rewrite baseline_ask_unfolds.
  unfold IPLStatsPostgresChatbotIO.ask, bind.
  rewrite !say_accepted, baseline_get_query_accepted.
  destruct (synthesized w question) as [sql|]; [|apply baseline_fallback_accepted].
  destruct (PyStr.is_empty sql); [apply baseline_fallback_accepted|].
  rewrite baseline_execute_accepted.
  destruct (executed w log sql) as [df|]; [|apply baseline_fallback_accepted].
  unfold lift. rewrite baseline_format_result_answer, say_accepted. reflexivity.
Qed.

Lemma enhanced_ask_accepted (question : string) (log : Log) :
  IPLStatsEnhancedChatbotIO.ask rt w question log
  = IPLStatsEnhancedChatbot.ask rt w question log.
Proof.
  rewrite enhanced_ask_unfolds.
  unfold IPLStatsEnhancedChatbotIO.ask, bind.
  rewrite !say_accepted, enhanced_get_query_accepted.
  destruct (synthesized w question) as [sql|]; [|apply enhanced_fallback_accepted].
  destruct (PyStr.is_empty sql); [apply enhanced_fallback_accepted|].
  rewrite enhanced_execute_accepted.
  destruct (executed w log sql) as [df|];
    [|rewrite say_accepted; apply enhanced_fallback_accepted].
  destruct (Frame.len df =? 0)%nat;
    [rewrite say_accepted; apply enhanced_fallback_accepted|].
  unfold lift. rewrite enhanced_format_result_answer, say_accepted. reflexivity.
Qed.

End Quiet.

(** The resolvers with their output select the same template. *)
Lemma baseline_io_fallback_selects (rt : Runtime) (w : World) (question : string)
    (log : Log) :
  IPLStatsPostgresChatbotIO._try_fallback_queries rt w question log
  = match IPLStatsPostgresChatbot.template_of (str_lower rt question) with
    | Some template =>
        try_catch (IPLStatsPostgresChatbotIO.run_template rt w template question)
          (fun e =>
             ret ("Sorry, I encountered an error while processing your question: "
                    ++ exn_str rt e)) log
    | None => (Ok IPLStatsPostgresChatbot.no_match_message, log)
    end.
Proof.
  unfold IPLStatsPostgresChatbotIO._try_fallback_queries,
    IPLStatsPostgresChatbot.template_of.
  repeat match goal with
         | |- context [if ?c then _ else _] => destruct c
         end; reflexivity.
Qed.

Lemma enhanced_io_fallback_selects (rt : Runtime) (w : World) (question : string)
    (log : Log) :
  IPLStatsEnhancedChatbotIO._try_enhanced_fallback_queries rt w question log
  = match IPLStatsEnhancedChatbot.template_of (str_lower rt question) with
    | Some template =>
        try_catch (IPLStatsEnhancedChatbotIO.run_template rt w template question)
          (fun _ =>
             ret (Some ("Sorry, I encountered an error while processing your question. "
                          ++ "Please try a different query."))) log
    | None => (Ok (Some IPLStatsEnhancedChatbot._get_helpful_suggestions), log)
    end.
Proof.
  unfold IPLStatsEnhancedChatbotIO._try_enhanced_fallback_queries,
    IPLStatsEnhancedChatbot.template_of.
  destruct (IPLStatsEnhancedChatbot.is_top_run_scorers _); [reflexivity|].
  destruct (IPLStatsEnhancedChatbot.is_top_wicket_takers _); [reflexivity|].
  destruct (IPLStatsEnhancedChatbot.is_death_pace _); [reflexivity|].
  destruct (IPLStatsEnhancedChatbot.is_death_strike_rate _); [reflexivity|].
  destruct (IPLStatsEnhancedChatbot.is_season _) eqn:Hs; [|reflexivity].
  destruct (year_of_season _ Hs) as (y & Hy & Hnz & Hyear).
  rewrite Hyear. cbn [option_map]. unfold try_catch, bind at 1, lift.
  rewrite Hy, Hnz. reflexivity.
Qed.

(** With a console that accepts every text, [ask] of either class returns,
    and what it returns is a string: every raise of the LLM call, of the
    cleanup, of [pd.read_sql] and of the formatters is caught by the [try]
    of its method, and the enhanced class never returns [None]. *)
Lemma ask_returns_when_the_console_accepts (rt : Runtime) (w : World) (question : string)
    (log : Log) :
  (forall text : string, print w text = Ok tt) ->
  (exists answer log',
      IPLStatsPostgresChatbotIO.ask rt w question log = (Ok answer, log'))
  /\ (exists answer log',
         IPLStatsEnhancedChatbotIO.ask rt w question log = (Ok (Some answer), log')).
Proof.
  intros Hacc. split.
  - rewrite (baseline_ask_accepted rt w Hacc), baseline_ask_reply. eauto.
  - rewrite (enhanced_ask_accepted rt w Hacc), enhanced_ask_reply. eauto.
Qed.

Lemma ask_raises_on_the_question_line (rt : Runtime) (w : World) (question : string)
    (log : Log) (e : exn) :
  print w (PyStr.nl ++ "Question: " ++ question) = Raise e ->
  IPLStatsPostgresChatbotIO.ask rt w question log = (Raise e, log)
  /\ IPLStatsEnhancedChatbotIO.ask rt w question log = (Raise e, log).
Proof.
  intros H.
  unfold IPLStatsPostgresChatbotIO.ask, IPLStatsEnhancedChatbotIO.ask, bind, say, lift.
  rewrite H. split; reflexivity.
Qed.

(** C1 fails on the code.  [ask] of either class starts with
    [print(f"\nQuestion: {question}")], outside every [try]: when that
    [print] raises, the exception leaves [ask], and nothing has been asked
    of the LLM or executed. *)
Theorem ask_raises_when_its_first_print_does :
  forall (rt : Runtime) (w : World) (question : string) (log : Log) (e : exn),
    print w (PyStr.nl ++ "Question: " ++ question) = Raise e ->
    IPLStatsPostgresChatbotIO.ask rt w question log = (Raise e, log)
    /\ IPLStatsEnhancedChatbotIO.ask rt w question log = (Raise e, log).
Proof.
  intros rt w question log e H. now apply ask_raises_on_the_question_line.
Qed.

(** C1 at the question that is one lone surrogate, on a console that
    encodes in UTF-8. *)
Lemma ask_raises_when_its_first_print_does_witness :
  IPLStatsPostgresChatbotIO.ask Samples.runtime
    (Samples.utf8_console (Samples.db_empty "SELECT 1")) Samples.lone_surrogate []
  = (Raise UnicodeEncodeError, [])
  /\ IPLStatsEnhancedChatbotIO.ask Samples.runtime
       (Samples.utf8_console (Samples.db_empty "SELECT 1")) Samples.lone_surrogate []
     = (Raise UnicodeEncodeError, []).
Proof.
  exact (ask_raises_when_its_first_print_does Samples.runtime
           (Samples.utf8_console (Samples.db_empty "SELECT 1")) Samples.lone_surrogate []
           UnicodeEncodeError eq_refl).
Defined.

(** ** C2: an empty result table *)

(** C2, as stated, fails on the enhanced class: the synthesized statement
    returns an empty table, and [ask] answers with the help message, since
    the question matches no template of the fallback resolver. *)
Lemma enhanced_empty_table_reaches_help :
  IPLStatsEnhancedChatbot.ask Samples.runtime
    (Samples.db_empty "SELECT venue FROM ipl_balls WHERE 1 = 0")
    "Which venue hosted most matches?" []
  = (Ok (Some IPLStatsEnhancedChatbot._get_helpful_suggestions),
     ["SELECT venue FROM ipl_balls WHERE 1 = 0"])
  /\ IPLStatsEnhancedChatbot._get_helpful_suggestions <> Common.no_data_found.
Proof.
  split; [vm_compute; reflexivity | discriminate].
Qed.

(** C2, amended.  Let the synthesized statement [sql] be non-empty and return
    an empty table [df].  The formatter of either class turns [df] into the
    fixed message, whatever the question.  The baseline [ask] returns exactly
    that message.  The enhanced [ask] hands the question to the fallback
    resolver instead: it returns the fixed message when the template the
    resolver selects returns an empty table too, and the help message when
    the question selects no template.  [ask] is taken with its output, on
    a console that accepts it. *)
Theorem empty_table_answers :
  forall (rt : Runtime) (w : World) (question : string) (log : Log)
         (reply sql : string) (df : DataFrame),
    (forall text : string, print w text = Ok tt) ->
    llm w question = Ok (Some reply) ->
    Common.clean_reply reply = Ok sql ->
    PyStr.is_empty sql = false ->
    read_sql w log sql = Ok df ->
    Frame.len df = 0 ->
    IPLStatsPostgresChatbot._format_result rt (Some df) question = Ok Common.no_data_found
    /\ IPLStatsEnhancedChatbot._format_result rt (Some df) question = Ok Common.no_data_found
    /\ IPLStatsPostgresChatbotIO.ask rt w question log
       = (Ok Common.no_data_found, (log ++ [sql])%list)
    /\ IPLStatsEnhancedChatbotIO.ask rt w question log
       = IPLStatsEnhancedChatbotIO._try_enhanced_fallback_queries rt w question
           (log ++ [sql])%list
    /\ (forall (template : string) (df' : DataFrame),
           IPLStatsEnhancedChatbot.template_of (str_lower rt question) = Some template ->
           read_sql w (log ++ [sql])%list template = Ok df' ->
           Frame.len df' = 0 ->
           IPLStatsEnhancedChatbotIO.ask rt w question log
           = (Ok (Some Common.no_data_found), (log ++ [sql; template])%list))
    /\ (IPLStatsEnhancedChatbot.template_of (str_lower rt question) = None ->
        IPLStatsEnhancedChatbotIO.ask rt w question log
        = (Ok (Some IPLStatsEnhancedChatbot._get_helpful_suggestions), (log ++ [sql])%list)).
Proof.
  intros rt w question log reply sql df Hacc Hllm Hclean Hne Hdb Hlen.
  rewrite !(enhanced_ask_accepted rt w Hacc), (baseline_ask_accepted rt w Hacc),
    (enhanced_fallback_accepted rt w Hacc).
  assert (Hsyn : synthesized w question = Some sql).
  { unfold synthesized. now rewrite Hllm, Hclean. }
  assert (Hex : executed w log sql = Some df).
  { unfold executed. now rewrite Hdb. }
  assert (Hb : IPLStatsPostgresChatbot._format_result rt (Some df) question
               = Ok Common.no_data_found).
  { unfold IPLStatsPostgresChatbot._format_result. now rewrite Hlen. }
  assert (He : IPLStatsEnhancedChatbot._format_result rt (Some df) question
               = Ok Common.no_data_found).
  { unfold IPLStatsEnhancedChatbot._format_result. now rewrite Hlen. }
  assert (Hask : IPLStatsEnhancedChatbot.ask rt w question log
                 = IPLStatsEnhancedChatbot._try_enhanced_fallback_queries rt w question
                     (log ++ [sql])%list).
  { rewrite enhanced_ask_unfolds, Hsyn, Hne, Hex, Hlen. reflexivity. }
  repeat split; try assumption.
  - rewrite baseline_ask_unfolds, Hsyn, Hne, Hex.
    unfold baseline_answer. now rewrite Hb.
  - intros template df' Ht Hdb' Hlen'.
    rewrite Hask, enhanced_fallback_selects, Ht, enhanced_run_template.
    unfold executed. rewrite Hdb'.
    unfold enhanced_answer, IPLStatsEnhancedChatbot._format_result. rewrite Hlen'.
    rewrite <- app_assoc. reflexivity.
  - intros Ht. now rewrite Hask, enhanced_fallback_selects, Ht.
Qed.

(** The amended C2 at a world whose database holds no row for any statement:
    the baseline answers with the fixed message. *)
Lemma empty_table_answers_witness :
  IPLStatsPostgresChatbotIO.ask Samples.runtime
    (Samples.db_empty "SELECT 1") "Most sixes in 2019?" []
  = (Ok Common.no_data_found, ["SELECT 1"]).
Proof.
  exact (proj1 (proj2 (proj2
    (empty_table_answers Samples.runtime (Samples.db_empty "SELECT 1")
       "Most sixes in 2019?" [] "SELECT 1" "SELECT 1" Frame.empty
       (fun _ => eq_refl) eq_refl eq_refl eq_refl eq_refl eq_refl)))).
Defined.

(** ** C3: the database is unreachable *)




(** ** C4: the batting leaderboard is the first choice *)

(** C4, as stated, fails on the baseline class: "best batsman of all time"
    has a word of each of the two sets and none of the excluded ones, yet
    [_try_fallback_queries] selects no template and returns its help
    message; and the template the baseline selects for "top run scorers"
    carries no 500-run threshold. *)
Lemma baseline_misses_batsman :
  PyStr.any_in ["top"; "best"; "highest"] (PyStr.lower "Best batsman of all time") = true
  /\ PyStr.any_in ["run"; "scorer"; "batsman"; "batter"]
       (PyStr.lower "Best batsman of all time") = true
  /\ PyStr.any_in ["death"; "2024"; "2023"; "2022"; "2021"; "pace"; "bowling"]
       (PyStr.lower "Best batsman of all time") = false
  /\ IPLStatsPostgresChatbot._try_fallback_queries Samples.runtime
       (Samples.db_empty "SELECT 1") "Best batsman of all time" []
     = (Ok IPLStatsPostgresChatbot.no_match_message, [])
  /\ IPLStatsPostgresChatbot.template_of (PyStr.lower "top run scorers")
     = Some IPLStatsPostgresChatbot.top_run_scorers_query
  /\ PyStr.contains "500" IPLStatsPostgresChatbot.top_run_scorers_query = false.
Proof.
  repeat split; vm_compute; reflexivity.
Qed.

(** C4, amended.  In the enhanced class, a lower-cased question with one of
    top/best/highest, one of run/scorer/batsman/batter and none of death, a
    specific year, pace, bowling selects the batting leaderboard template,
    which keeps batters above 500 runs; the test comes first, so that
    template is the only statement the resolver executes.  (The test looks
    for the years 2024, 2023 and 2022: a question that names no year has
    none of them, which is all the proof uses.)  In the baseline class the
    first test asks for one of top/best/highest and one of run/scorer and
    excludes nothing: whatever else the question says, also death, a year,
    pace or bowling, it selects the baseline's leaderboard template, which
    has no threshold.  The last equation of each part says the same of the
    resolver with its output, whatever the console does: the leaderboard
    template is the only statement it can execute. *)
Theorem top_run_scorers_is_first_choice :
  forall (rt : Runtime) (w : World),
    (forall (question : string) (log : Log),
        PyStr.any_in ["top"; "best"; "highest"] (str_lower rt question) = true ->
        PyStr.any_in ["run"; "scorer"; "batsman"; "batter"] (str_lower rt question) = true ->
        PyStr.any_in ["death"; "2024"; "2023"; "2022"; "pace"; "bowling"]
          (str_lower rt question) = false ->
        IPLStatsEnhancedChatbot._try_enhanced_fallback_queries rt w question log
        = IPLStatsEnhancedChatbot.run_template rt w
            IPLStatsEnhancedChatbot.top_run_scorers_query question log
        /\ snd (IPLStatsEnhancedChatbot._try_enhanced_fallback_queries rt w question log)
           = (log ++ [IPLStatsEnhancedChatbot.top_run_scorers_query])%list
        /\ IPLStatsEnhancedChatbotIO._try_enhanced_fallback_queries rt w question log
           = try_catch
               (IPLStatsEnhancedChatbotIO.run_template rt w
                  IPLStatsEnhancedChatbot.top_run_scorers_query question)
               (fun _ =>
                  ret (Some ("Sorry, I encountered an error while processing your question. "
                               ++ "Please try a different query."))) log)
    /\ PyStr.contains ("HAVING SUM(" ++ PyStr.qt "runs_batter" ++ ") > 500")
         IPLStatsEnhancedChatbot.top_run_scorers_query = true
    /\ (forall (question : string) (log : Log),
           PyStr.any_in ["top"; "best"; "highest"] (str_lower rt question) = true ->
           PyStr.any_in ["run"; "scorer"] (str_lower rt question) = true ->
           IPLStatsPostgresChatbot._try_fallback_queries rt w question log
           = IPLStatsPostgresChatbot.run_template rt w
               IPLStatsPostgresChatbot.top_run_scorers_query question log
           /\ snd (IPLStatsPostgresChatbot._try_fallback_queries rt w question log)
              = (log ++ [IPLStatsPostgresChatbot.top_run_scorers_query])%list
           /\ IPLStatsPostgresChatbotIO._try_fallback_queries rt w question log
              = try_catch
                  (IPLStatsPostgresChatbotIO.run_template rt w
                     IPLStatsPostgresChatbot.top_run_scorers_query question)
                  (fun e =>
                     ret ("Sorry, I encountered an error while processing your question: "
                            ++ exn_str rt e)) log)
    /\ PyStr.contains "HAVING" IPLStatsPostgresChatbot.top_run_scorers_query = false.
Proof.
  intros rt w. split; [|split; [reflexivity|split; [|reflexivity]]].
  - intros question log Htop Hrun Hnone.
    assert (He : IPLStatsEnhancedChatbot._try_enhanced_fallback_queries rt w question log
                 = IPLStatsEnhancedChatbot.run_template rt w
                     IPLStatsEnhancedChatbot.top_run_scorers_query question log).
    { rewrite enhanced_fallback_selects.
      unfold IPLStatsEnhancedChatbot.template_of, IPLStatsEnhancedChatbot.is_top_run_scorers.
      now rewrite Htop, Hrun, Hnone. }
    split; [exact He|]. split; [now rewrite He, enhanced_run_template|].
    rewrite enhanced_io_fallback_selects.
    unfold IPLStatsEnhancedChatbot.template_of, IPLStatsEnhancedChatbot.is_top_run_scorers.
    now rewrite Htop, Hrun, Hnone.
  - intros question log Htop Hrun.
    assert (Hb : IPLStatsPostgresChatbot._try_fallback_queries rt w question log
                 = IPLStatsPostgresChatbot.run_template rt w
                     IPLStatsPostgresChatbot.top_run_scorers_query question log).
    { rewrite baseline_fallback_selects.
      unfold IPLStatsPostgresChatbot.template_of. now rewrite Htop, Hrun. }
    split; [exact Hb|]. split; [now rewrite Hb, baseline_run_template|].
    rewrite baseline_io_fallback_selects.
    unfold IPLStatsPostgresChatbot.template_of. now rewrite Htop, Hrun.
Qed.

(** The amended C4 on "Highest scorer ever" in the enhanced class, and on
    "Top run scorers in death overs 2024" in the baseline, which the
    enhanced class excludes. *)
Lemma top_run_scorers_is_first_choice_witness :
  snd (IPLStatsEnhancedChatbot._try_enhanced_fallback_queries Samples.runtime
         (Samples.db_empty "SELECT 1") "Highest scorer ever" [])
  = [IPLStatsEnhancedChatbot.top_run_scorers_query]
  /\ snd (IPLStatsPostgresChatbot._try_fallback_queries Samples.runtime
            (Samples.db_empty "SELECT 1") "Top run scorers in death overs 2024" [])
     = [IPLStatsPostgresChatbot.top_run_scorers_query].
Proof.
  split.
  - exact (proj1 (proj2 (proj1
      (top_run_scorers_is_first_choice Samples.runtime (Samples.db_empty "SELECT 1"))
      "Highest scorer ever" [] eq_refl eq_refl eq_refl))).
  - exact (proj1 (proj2 (proj1 (proj2 (proj2
      (top_run_scorers_is_first_choice Samples.runtime (Samples.db_empty "SELECT 1"))))
      "Top run scorers in death overs 2024" [] eq_refl eq_refl))).
Defined.

(** ** C5: pace and spin *)

Lemma existsb_eqb_In (style : string) (codes : list string) :
  existsb (String.eqb style) codes = true <-> List.In style codes.
Proof.
  rewrite existsb_exists. split.
  - intros (c & Hin & Heq). apply String.eqb_eq in Heq. now subst.
  - intros Hin. exists style. split; [exact Hin | apply String.eqb_refl].
Qed.

(** C5, as stated, fails on the baseline class: the style code "lf" is one of
    the six pace codes, and the prompt guidance and the fallback template of
    the enhanced class classify it pace, but the fallback template of the
    baseline (and its prompt guidance) do not; neither do they classify "rf",
    which contains "rf". *)
Lemma baseline_does_not_class_lf_pace :
  List.In "lf" IPLStatsEnhancedChatbot.pace_styles
  /\ IPLStatsEnhancedChatbot.prompt_pace "lf" = true
  /\ IPLStatsEnhancedChatbot.fallback_pace "lf" = true
  /\ IPLStatsPostgresChatbot.fallback_pace "lf" = false
  /\ IPLStatsPostgresChatbot.prompt_pace "lf" = false
  /\ IPLStatsEnhancedChatbot.fallback_pace "rf" = true
  /\ IPLStatsPostgresChatbot.fallback_pace "rf" = false.
Proof.
  repeat split; try reflexivity. simpl. tauto.
Qed.

(** C5, amended.  Within each class the prompt guidance and the fallback
    template that filters by bowling style test the same thing: in the
    enhanced class, pace is a code of rm/rfm/rmf/lf/lfm/lmf or a style
    containing "rm" or "rf"; in the baseline class, pace is a style
    containing "rm", "rfm" or "lfm".  In both classes the spin guidance
    covers every style that is not pace; "rfm" is pace and "ob" is spin,
    not pace, for the guidance and the template of both.  The tests are the
    ones written in the prompt lines and in the templates. *)
Theorem pace_classification :
  (forall style,
      IPLStatsPostgresChatbot.prompt_pace style = IPLStatsPostgresChatbot.fallback_pace style)
  /\ (forall style,
         IPLStatsEnhancedChatbot.prompt_pace style
         = IPLStatsEnhancedChatbot.fallback_pace style)
  /\ (forall style,
         IPLStatsEnhancedChatbot.fallback_pace style = true
         <-> (List.In style ["rm"; "rfm"; "rmf"; "lf"; "lfm"; "lmf"]
              \/ PyStr.contains "rm" style = true
              \/ PyStr.contains "rf" style = true))
  /\ (forall style,
         IPLStatsPostgresChatbot.fallback_pace style = true
         <-> (PyStr.contains "rm" style = true
              \/ PyStr.contains "rfm" style = true
              \/ PyStr.contains "lfm" style = true))
  /\ (forall style,
         IPLStatsPostgresChatbot.prompt_spin style
         = negb (IPLStatsPostgresChatbot.prompt_pace style))
  /\ (forall style,
         IPLStatsEnhancedChatbot.prompt_pace style = false ->
         IPLStatsEnhancedChatbot.prompt_spin style = true)
  /\ (IPLStatsPostgresChatbot.prompt_pace "rfm" = true
      /\ IPLStatsPostgresChatbot.fallback_pace "rfm" = true
      /\ IPLStatsEnhancedChatbot.prompt_pace "rfm" = true
      /\ IPLStatsEnhancedChatbot.fallback_pace "rfm" = true)
  /\ (IPLStatsPostgresChatbot.prompt_pace "ob" = false
      /\ IPLStatsPostgresChatbot.fallback_pace "ob" = false
      /\ IPLStatsEnhancedChatbot.prompt_pace "ob" = false
      /\ IPLStatsEnhancedChatbot.fallback_pace "ob" = false
      /\ IPLStatsPostgresChatbot.prompt_spin "ob" = true
      /\ IPLStatsEnhancedChatbot.prompt_spin "ob" = true)
  /\ (PyStr.contains
        (Sql.render_any (PyStr.qt "bowling_style") IPLStatsPostgresChatbot.pace_filter)
        IPLStatsPostgresChatbot.pace_guidance = true
      /\ PyStr.contains
           (Sql.render_all (PyStr.qt "bowling_style") IPLStatsPostgresChatbot.spin_filter)
           IPLStatsPostgresChatbot.spin_guidance = true
      /\ PyStr.contains
           (Sql.render_any (PyStr.qt "bowling_style") IPLStatsPostgresChatbot.pace_filter)
           IPLStatsPostgresChatbot.death_pace_query = true
      /\ PyStr.contains
           (Sql.render_any "bowling_style" IPLStatsEnhancedChatbot.guidance_pace_filter)
           IPLStatsEnhancedChatbot.pace_guidance = true
      /\ PyStr.contains
           (Sql.render "bowling_style" (Sql.In IPLStatsEnhancedChatbot.spin_styles))
           IPLStatsEnhancedChatbot.spin_guidance = true
      /\ PyStr.contains
           (Sql.render_any (PyStr.qt "bowling_style")
              IPLStatsEnhancedChatbot.template_pace_filter)
           IPLStatsEnhancedChatbot.death_pace_query = true).
Proof.
  split; [reflexivity|].
  split.
  { intros style.
    unfold IPLStatsEnhancedChatbot.prompt_pace, IPLStatsEnhancedChatbot.fallback_pace,
      Sql.any_of, IPLStatsEnhancedChatbot.guidance_pace_filter,
      IPLStatsEnhancedChatbot.template_pace_filter.
    cbn [existsb Sql.holds].
    destruct (existsb (String.eqb style) IPLStatsEnhancedChatbot.pace_styles),
      (PyStr.contains "rm" style), (PyStr.contains "rf" style); reflexivity. }
  split.
  { intros style.
    unfold IPLStatsEnhancedChatbot.fallback_pace, Sql.any_of,
      IPLStatsEnhancedChatbot.template_pace_filter.
    cbn [existsb Sql.holds]. rewrite orb_false_r, !orb_true_iff, existsb_eqb_In.
    unfold IPLStatsEnhancedChatbot.pace_styles. tauto. }
  split.
  { intros style.
    unfold IPLStatsPostgresChatbot.fallback_pace, Sql.any_of,
      IPLStatsPostgresChatbot.pace_filter.
    cbn [existsb Sql.holds]. rewrite orb_false_r, !orb_true_iff. tauto. }
  split.
  { intros style.
    unfold IPLStatsPostgresChatbot.prompt_spin, IPLStatsPostgresChatbot.prompt_pace,
      Sql.all_of, Sql.any_of, IPLStatsPostgresChatbot.spin_filter,
      IPLStatsPostgresChatbot.pace_filter.
    cbn [existsb forallb Sql.holds].
    destruct (PyStr.contains "rm" style), (PyStr.contains "rfm" style),
      (PyStr.contains "lfm" style); reflexivity. }
  split.
  { intros style.
    unfold IPLStatsEnhancedChatbot.prompt_spin, IPLStatsEnhancedChatbot.prompt_pace,
      Sql.all_of, Sql.any_of, IPLStatsEnhancedChatbot.guidance_pace_filter.
    cbn [existsb forallb Sql.holds].
    destruct (existsb (String.eqb style) IPLStatsEnhancedChatbot.pace_styles),
      (PyStr.contains "rm" style), (PyStr.contains "rf" style);
      try discriminate.
    intros _. apply orb_true_r. }
  repeat split; vm_compute; reflexivity.
Qed.

(** ** C6: a year outside the known set *)

Lemma extract_year_only_known (question_lower : string) (y : Z) :
  IPLStatsEnhancedChatbot.extract_year IPLStatsEnhancedChatbot.known_years question_lower
  = Ok (Some y) ->
  List.In y [2024; 2023; 2022; 2021]%Z
  /\ PyStr.contains (PyFmt.str_int y) question_lower = true.
Proof.
  intros Hy.
  destruct (IPLStatsEnhancedChatbot.is_season question_lower) eqn:Hs.
  - destruct (extract_year_known _ Hs) as (y' & Hy' & Hin & Hc).
    rewrite Hy in Hy'. injection Hy' as <-. now split.
  - rewrite (extract_year_unknown _ Hs) in Hy. discriminate.
Qed.

(** C6.  The season branch of the enhanced resolver is taken exactly for the
    years 2021 to 2024: the year it extracts is one of the four and occurs in
    the question.  A question that contains "2025", none of the four known
    years, and matches none of the four keyword categories before it gets the
    help message, and no statement is built or executed.  The baseline
    resolver has no season branch: a question that selects none of its
    templates gets its help message.  The same holds of the resolvers with
    their output, whatever the console does: on this path nothing is
    printed. *)
Theorem unknown_year_gets_help :
  forall (rt : Runtime) (w : World) (question : string) (log : Log),
    PyStr.contains "2025" (str_lower rt question) = true ->
    IPLStatsEnhancedChatbot.is_top_run_scorers (str_lower rt question) = false ->
    IPLStatsEnhancedChatbot.is_top_wicket_takers (str_lower rt question) = false ->
    IPLStatsEnhancedChatbot.is_death_pace (str_lower rt question) = false ->
    IPLStatsEnhancedChatbot.is_death_strike_rate (str_lower rt question) = false ->
    PyStr.any_in ["2024"; "2023"; "2022"; "2021"] (str_lower rt question) = false ->
    IPLStatsEnhancedChatbot._try_enhanced_fallback_queries rt w question log
    = (Ok (Some IPLStatsEnhancedChatbot._get_helpful_suggestions), log)
    /\ IPLStatsEnhancedChatbotIO._try_enhanced_fallback_queries rt w question log
       = (Ok (Some IPLStatsEnhancedChatbot._get_helpful_suggestions), log)
    /\ IPLStatsEnhancedChatbot.year_of (str_lower rt question) = None
    /\ (forall (ql : string) (y : Z),
           IPLStatsEnhancedChatbot.year_of ql = Some y ->
           List.In y [2024; 2023; 2022; 2021]%Z
           /\ PyStr.contains (PyFmt.str_int y) ql = true)
    /\ (IPLStatsPostgresChatbot.template_of (str_lower rt question) = None ->
        IPLStatsPostgresChatbot._try_fallback_queries rt w question log
        = (Ok IPLStatsPostgresChatbot.no_match_message, log)
        /\ IPLStatsPostgresChatbotIO._try_fallback_queries rt w question log
           = (Ok IPLStatsPostgresChatbot.no_match_message, log)).
Proof.
  intros rt w question log _ H1 H2 H3 H4 H5.
  assert (Hs : IPLStatsEnhancedChatbot.is_season (str_lower rt question) = false)
    by exact H5.
  split.
  { rewrite enhanced_fallback_selects. unfold IPLStatsEnhancedChatbot.template_of.
    now rewrite H1, H2, H3, H4, Hs. }
  split.
  { rewrite enhanced_io_fallback_selects. unfold IPLStatsEnhancedChatbot.template_of.
    now rewrite H1, H2, H3, H4, Hs. }
  split.
  { unfold IPLStatsEnhancedChatbot.year_of. now rewrite (extract_year_unknown _ Hs). }
  split.
  { intros ql y. unfold IPLStatsEnhancedChatbot.year_of.
    destruct (IPLStatsEnhancedChatbot.extract_year _ ql) as [[y'|]|e] eqn:Hy;
      try discriminate.
    destruct (y' =? 0)%Z; [discriminate|].
    intros [= <-]. now apply extract_year_only_known. }
  intros Hb. now rewrite baseline_fallback_selects, baseline_io_fallback_selects, Hb.
Qed.

(** C6 on "Who will win IPL 2025?". *)
Lemma unknown_year_gets_help_witness :
  IPLStatsEnhancedChatbot._try_enhanced_fallback_queries Samples.runtime
    (Samples.db_empty "SELECT 1") "Who will win IPL 2025?" []
  = (Ok (Some IPLStatsEnhancedChatbot._get_helpful_suggestions), []).
Proof.
  exact (proj1
    (unknown_year_gets_help Samples.runtime (Samples.db_empty "SELECT 1")
       "Who will win IPL 2025?" [] eq_refl eq_refl eq_refl eq_refl eq_refl eq_refl)).
Defined.

(** ** C8: the row of V Kohli *)

(** C8, as stated, fails on the baseline class: its formatter shows the main
    statistic only, so the strike rate 135.5 is not in its output. *)
Lemma baseline_omits_strike_rate :
  IPLStatsPostgresChatbot._format_result Samples.runtime (Some Samples.kohli)
    "top run scorers"
  = Ok ("🏏 **Top 1 Results:**" ++ PyStr.nl ++ PyStr.nl
        ++ "🥇 **V Kohli** - 1,250 runs" ++ PyStr.nl)
  /\ PyStr.contains "135.5"
       ("🏏 **Top 1 Results:**" ++ PyStr.nl ++ PyStr.nl
        ++ "🥇 **V Kohli** - 1,250 runs" ++ PyStr.nl) = false.
Proof.
  split; vm_compute; reflexivity.
Qed.

(** C8, amended.  For the one-row table of V Kohli and any question, the
    formatter of the enhanced class returns the header followed by the line
    that starts with the rank-1 medal and holds "V Kohli", "1,250" and
    "135.5".  The formatter of the baseline returns its header followed by
    the rank-1 medal, "V Kohli" and "1,250 runs"; it does not show the strike
    rate. *)
Theorem kohli_row_is_formatted :
  forall (rt : Runtime) (question : string),
    IPLStatsEnhancedChatbot._format_result rt (Some Samples.kohli) question
    = Ok ("🏏 **Cricket Analytics Results:**" ++ PyStr.nl ++ PyStr.nl
          ++ Common.medal_1 ++ " **V Kohli** - **1,250 runs** | SR: 135.5" ++ PyStr.nl)
    /\ IPLStatsPostgresChatbot._format_result rt (Some Samples.kohli) question
       = Ok ("🏏 **Top 1 Results:**" ++ PyStr.nl ++ PyStr.nl
             ++ Common.medal_1 ++ " **V Kohli** - 1,250 runs" ++ PyStr.nl)
    /\ (forall text,
           IPLStatsEnhancedChatbot._format_result rt (Some Samples.kohli) question = Ok text ->
           PyStr.contains "V Kohli" text = true
           /\ PyStr.contains "1,250" text = true
           /\ PyStr.contains "135.5" text = true
           /\ PyStr.contains (Common.medal_1 ++ " **V Kohli**") text = true)
    /\ (forall text,
           IPLStatsPostgresChatbot._format_result rt (Some Samples.kohli) question = Ok text ->
           PyStr.contains "V Kohli" text = true
           /\ PyStr.contains "1,250" text = true
           /\ PyStr.contains "135.5" text = false
           /\ PyStr.contains (Common.medal_1 ++ " **V Kohli**") text = true).
Proof.
  intros rt question.
  assert (He : IPLStatsEnhancedChatbot._format_result rt (Some Samples.kohli) question
               = Ok ("🏏 **Cricket Analytics Results:**" ++ PyStr.nl ++ PyStr.nl
                     ++ Common.medal_1 ++ " **V Kohli** - **1,250 runs** | SR: 135.5"
                     ++ PyStr.nl)).
  { vm_compute. reflexivity. }
  assert (Hb : IPLStatsPostgresChatbot._format_result rt (Some Samples.kohli) question
               = Ok ("🏏 **Top 1 Results:**" ++ PyStr.nl ++ PyStr.nl
                     ++ Common.medal_1 ++ " **V Kohli** - 1,250 runs" ++ PyStr.nl)).
  { vm_compute. reflexivity. }
  split; [exact He|]. split; [exact Hb|]. split.
  - intros text Ht. rewrite He in Ht. injection Ht as <-.
    repeat split; vm_compute; reflexivity.
  - intros text Ht. rewrite Hb in Ht. injection Ht as <-.
    repeat split; vm_compute; reflexivity.
Qed.

(** ** C10: a reply that cleans to the empty string *)









(** ** Facts about strings *)

Module StrFacts.
Import PyStr.

Lemma lstrip_not_starts (p : ascii -> bool) (s : string) :
  starts_with p (lstrip_by p s) = false.
Proof.
  induction s as [|c s IH]; simpl; [reflexivity|].
  destruct (p c) eqn:E; [exact IH | simpl; exact E].
Qed.

Lemma rstrip_not_ends (p : ascii -> bool) (s : string) :
  ends_with p (rstrip_by p s) = false.
Proof.
  induction s as [|c s IH]; simpl; [reflexivity|].
  destruct (rstrip_by p s) as [|d r] eqn:Er; simpl.
  - destruct (p c) eqn:E; simpl; [reflexivity | exact E].
  - exact IH.
Qed.

Lemma lstrip_keeps_end (p : ascii -> bool) (s : string) :
  ends_with p s = false -> ends_with p (lstrip_by p s) = false.
Proof.
  induction s as [|c s IH]; simpl; [reflexivity|].
  destruct (p c) eqn:E; [|simpl; rewrite E; auto].
  destruct s as [|d s']; [intros H; congruence | exact IH].
Qed.

Lemma lstrip_unfold (s : string) :
  lstrip s = match leading_space s with
             | Some rest => lstrip rest
             | None => s
             end.
Proof.
  destruct s as [|a s1]; [reflexivity|]. cbn [lstrip leading_space].
  destruct (is_space a); [reflexivity|].
  destruct s1 as [|b s2]; [reflexivity|].
  destruct (is_space2 a b); [reflexivity|].
  destruct s2 as [|c s3]; [reflexivity|].
  destruct (is_space3 a b c); reflexivity.
Qed.

Lemma leading_space_shorter (s rest : string) :
  leading_space s = Some rest ->
  exists pre, s = pre ++ rest /\ (0 < String.length pre)%nat.
Proof.
  destruct s as [|a s1]; [discriminate|]. cbn [leading_space].
  destruct (is_space a).
  { intros [= <-]. exists (String a EmptyString). split; [reflexivity | simpl; lia]. }
  destruct s1 as [|b s2]; [discriminate|].
  destruct (is_space2 a b).
  { intros [= <-]. exists (String a (String b EmptyString)).
    split; [reflexivity | simpl; lia]. }
  destruct s2 as [|c s3]; [discriminate|].
  destruct (is_space3 a b c); [|discriminate].
  intros [= <-]. exists (String a (String b (String c EmptyString))).
  split; [reflexivity | simpl; lia].
Qed.

Lemma leading_space_app (s rest z : string) :
  leading_space s = Some rest -> leading_space (s ++ z) = Some (rest ++ z).
Proof.
  destruct s as [|a s1]; [discriminate|]. cbn [leading_space append].
  destruct (is_space a); [now intros [= <-]|].
  destruct s1 as [|b s2]; [discriminate|]. cbn [append].
  destruct (is_space2 a b); [now intros [= <-]|].
  destruct s2 as [|c s3]; [discriminate|]. cbn [append].
  destruct (is_space3 a b c); [now intros [= <-] | discriminate].
Qed.

Lemma length_app (a b : string) :
  String.length (a ++ b) = (String.length a + String.length b)%nat.
Proof.
  induction a as [|c a IH]; simpl; [reflexivity | now rewrite IH].
Qed.

(** Induction along the characters [lstrip] removes. *)
Lemma lstrip_rect (P : string -> string -> Prop) :
  (forall s, leading_space s = None -> P s s) ->
  (forall s rest, leading_space s = Some rest -> P rest (lstrip rest) -> P s (lstrip rest)) ->
  forall s, P s (lstrip s).
Proof.
  intros Hnone Hsome s.
  assert (H : forall n s, (String.length s < n)%nat -> P s (lstrip s)).
  { induction n as [|n IH]; intros t Hlen; [lia|].
    rewrite lstrip_unfold. destruct (leading_space t) as [rest|] eqn:E.
    - apply Hsome; [exact E|]. apply IH.
      destruct (leading_space_shorter _ _ E) as (pre & -> & Hpre).
      rewrite length_app in Hlen. lia.
    - now apply Hnone. }
  apply (H (S (String.length s))). lia.
Qed.

Lemma lstrip_no_leading_space (s : string) : leading_space (lstrip s) = None.
Proof.
  apply (lstrip_rect (fun _ t => leading_space t = None)); auto.
Qed.


Lemma lstrip_fixed (s : string) : leading_space s = None -> lstrip s = s.
Proof.
  intros H. now rewrite lstrip_unfold, H.
Qed.







Lemma rstrip_by_is_prefix (p : ascii -> bool) (s : string) :
  exists rest, s = rstrip_by p s ++ rest.
Proof.
  induction s as [|c s [rest IH]]; [now exists EmptyString|]. cbn [rstrip_by].
  destruct (is_empty (rstrip_by p s) && p c).
  - now exists (String c s).
  - exists rest. cbn [append]. now rewrite <- IH.
Qed.

(** What is left of a stripped text once characters have gone from its
    end starts with no whitespace either. *)
Lemma rstrip_by_no_leading_space (p : ascii -> bool) (s : string) :
  leading_space s = None -> leading_space (rstrip_by p s) = None.
Proof.
  intros H. destruct (rstrip_by_is_prefix p s) as [rest E].
  destruct (leading_space (rstrip_by p s)) as [r|] eqn:El; [|reflexivity].
  rewrite E in H. rewrite (leading_space_app _ _ rest El) in H. discriminate.
Qed.



Lemma split_go_skip (sep x b : string) :
  split_go sep (String.length x) (x ++ b) = split_go sep 0 b.
Proof.
  induction x as [|c x IH]; simpl; [reflexivity | exact IH].
Qed.

Lemma prefix_app (sep b : string) : prefix sep (sep ++ b) = true.
Proof.
  induction sep as [|c sep IH]; simpl; [now destruct b|].
  destruct (ascii_dec c c); [exact IH | congruence].
Qed.

Lemma prefix_of_longer (sep x y : string) :
  String.length sep <= String.length x ->
  prefix sep (x ++ y) = prefix sep x.
Proof.
  revert x. induction sep as [|c sep IH]; intros x Hlen.
  - destruct x; simpl; [now destruct y | reflexivity].
  - destruct x as [|d x]; simpl in *; [lia|].
    destruct (ascii_dec c d); [apply IH; lia | reflexivity].
Qed.

Lemma length_init (sep : string) : String.length (all_but_last sep) = String.length sep - 1.
Proof.
  induction sep as [|c sep IH]; [reflexivity|].
  destruct sep as [|d sep]; [reflexivity|].
  change (all_but_last (String c (String d sep))) with (String c (all_but_last (String d sep))).
  cbn [String.length] in *. lia.
Qed.

Lemma length_append (a b : string) :
  String.length (a ++ b) = String.length a + String.length b.
Proof.
  induction a; simpl; auto.
Qed.

Lemma append_assoc (a b c : string) : (a ++ b) ++ c = a ++ b ++ c.
Proof.
  induction a; simpl; congruence.
Qed.

Lemma init_prefix (sep : string) :
  is_empty sep = false -> exists z, sep = all_but_last sep ++ z.
Proof.
  induction sep as [|c sep IH]; [discriminate|]. intros _.
  destruct sep as [|d sep].
  - exists (String c EmptyString). reflexivity.
  - destruct IH as [z Hz]; [reflexivity|]. exists z.
    change (all_but_last (String c (String d sep)) ++ z)
      with (String c (all_but_last (String d sep) ++ z)).
    now rewrite <- Hz.
Qed.

(** The first piece of a split ends at the first occurrence of the
    separator: no occurrence starts inside [a] when [sep] does not occur in
    [a] followed by all but the last character of [sep]. *)
Lemma split_go_first (sep a b : string) :
  is_empty sep = false ->
  contains sep (a ++ all_but_last sep) = false ->
  split_go sep 0 (a ++ sep ++ b) = a :: split_go sep 0 b.
Proof.
  intros Hsep. induction a as [|c a IH]; intros Hno.
  - destruct sep as [|c sep]; [discriminate|].
    change (EmptyString ++ String c sep ++ b) with (String c (sep ++ b)).
    cbn [split_go].
    change (String c (sep ++ b)) with (String c sep ++ b).
    rewrite prefix_app.
    replace (String.length (String c sep) - 1) with (String.length sep)
      by (cbn [String.length]; lia).
    now rewrite split_go_skip.
  - change (String c a ++ sep ++ b) with (String c (a ++ sep ++ b)).
    cbn [split_go].
    change (String c a ++ all_but_last sep) with (String c (a ++ all_but_last sep)) in Hno.
    cbn [contains] in Hno. apply orb_false_iff in Hno. destruct Hno as [Hp Hc].
    assert (Hp' : prefix sep (String c (a ++ sep ++ b)) = false).
    { destruct (init_prefix sep Hsep) as [z Hz].
      assert (E : a ++ sep ++ b = (a ++ all_but_last sep) ++ z ++ b).
      { rewrite append_assoc. f_equal. rewrite <- append_assoc. now rewrite <- Hz. }
      rewrite E.
      change (String c ((a ++ all_but_last sep) ++ z ++ b))
        with (String c (a ++ all_but_last sep) ++ z ++ b).
      rewrite prefix_of_longer; [exact Hp|].
      cbn [String.length]. rewrite length_append, length_init. lia. }
    rewrite Hp', (IH Hc). reflexivity.
Qed.

Lemma contains_app (sep a b : string) : contains sep (a ++ sep ++ b) = true.
Proof.
  induction a as [|c a IH].
  - simpl. destruct (sep ++ b) eqn:E; cbn [contains]; rewrite <- E, prefix_app; reflexivity.
  - change (String c a ++ sep ++ b) with (String c (a ++ sep ++ b)).
    cbn [contains]. rewrite IH. apply orb_true_r.
Qed.

Lemma split_go_none (sep s : string) :
  contains sep s = false -> split_go sep 0 s = [s].
Proof.
  induction s as [|c s IH]; [reflexivity|].
  cbn [contains split_go]. intros H. apply orb_false_iff in H. destruct H as [Hp Hc].
  now rewrite Hp, (IH Hc).
Qed.

End StrFacts.

(** ** C7: the cleanup of the reply *)

(** C7, the second half, fails on the code: [rstrip(';')] stops at the
    whitespace between two semicolons, and the [strip()] after it uncovers
    the semicolon before that whitespace.  The reply "...LIMIT 10; ;" is
    returned with a trailing semicolon, in plain text and inside a fenced
    block alike. *)
Theorem cleanup_leaves_a_semicolon :
  Common.clean_reply "SELECT * FROM mv_top_run_scorers LIMIT 10; ;"
  = Ok "SELECT * FROM mv_top_run_scorers LIMIT 10;"
  /\ Common.clean_reply
       ("```sql" ++ PyStr.nl ++ "SELECT * FROM mv_top_bowlers LIMIT 10;" ++ PyStr.nl
        ++ ";" ++ PyStr.nl ++ "```")
     = Ok "SELECT * FROM mv_top_bowlers LIMIT 10;"
  /\ Common._get_query_from_llm
       (Samples.db_empty "SELECT * FROM mv_top_run_scorers LIMIT 10; ;")
       "top run scorers" []
     = (Ok (Some "SELECT * FROM mv_top_run_scorers LIMIT 10;"), []).
Proof.
  repeat split; vm_compute; reflexivity.
Qed.





(** Both separators are non-empty, so [split] does not raise. *)
Lemma split_fence (s : string) :
  PyStr.split PyStr.fence s = Ok (PyStr.split_go PyStr.fence 0 s).
Proof. reflexivity. Qed.

Lemma split_fence_sql (s : string) :
  PyStr.split PyStr.fence_sql s = Ok (PyStr.split_go PyStr.fence_sql 0 s).
Proof. reflexivity. Qed.


(** X2.  When the stripped reply holds one "```sql" marker, and the first
    "```" after it closes the block, the returned query is the text between
    the two, stripped, without the semicolons it ends in, and stripped
    again. *)
Theorem clean_reply_extracts_sql_block :
  forall reply pre body post : string,
    PyStr.strip reply = pre ++ "```sql" ++ body ++ "```" ++ post ->
    PyStr.contains "```sql" (pre ++ "```sq") = false ->
    PyStr.contains "```sql" (body ++ "```" ++ post) = false ->
    PyStr.contains "```" (body ++ "``") = false ->
    Common.clean_reply reply = Ok (PyStr.strip (PyStr.rstrip_semicolons (PyStr.strip body))).
Proof.
  intros reply pre body post Hr Hpre Hpost Hbody.
  unfold Common.clean_reply. rewrite Hr.
  change "```sql" with PyStr.fence_sql in *. change "```" with PyStr.fence in *.
  rewrite StrFacts.contains_app, split_fence_sql.
  rewrite (StrFacts.split_go_first PyStr.fence_sql pre _ eq_refl Hpre).
  rewrite (StrFacts.split_go_none PyStr.fence_sql _ Hpost).
  cbn [PyStr.item nth_error obind]. rewrite split_fence.
  rewrite (StrFacts.split_go_first PyStr.fence body post eq_refl Hbody).
  reflexivity.
Qed.

(** X2 on a reply with prose around the block. *)
Lemma clean_reply_extracts_sql_block_witness :
  Common.clean_reply Samples.fenced_reply = Ok "SELECT 1".
Proof.
  exact (clean_reply_extracts_sql_block Samples.fenced_reply
    ("Here is the query:" ++ PyStr.nl) (PyStr.nl ++ "SELECT 1;" ++ PyStr.nl)
    (PyStr.nl ++ "Enjoy!")
    eq_refl eq_refl eq_refl eq_refl).
Defined.

(** X3.  When the stripped reply holds no "```sql" marker and its first two
    "```" enclose [body], the returned query is [body], stripped, without the
    semicolons it ends in, and stripped again. *)
Theorem clean_reply_extracts_plain_block :
  forall reply pre body post : string,
    PyStr.strip reply = pre ++ "```" ++ body ++ "```" ++ post ->
    PyStr.contains "```sql" (PyStr.strip reply) = false ->
    PyStr.contains "```" (pre ++ "``") = false ->
    PyStr.contains "```" (body ++ "``") = false ->
    Common.clean_reply reply = Ok (PyStr.strip (PyStr.rstrip_semicolons (PyStr.strip body))).
Proof.
  intros reply pre body post Hr Hsql Hpre Hbody.
  unfold Common.clean_reply. change PyStr.fence_sql with "```sql". rewrite Hsql, Hr.
  change "```" with PyStr.fence.
  rewrite StrFacts.contains_app, split_fence.
  rewrite (StrFacts.split_go_first PyStr.fence pre _ eq_refl Hpre).
  rewrite (StrFacts.split_go_first PyStr.fence body post eq_refl Hbody).
  reflexivity.
Qed.

(** X3 on a bare block. *)
Lemma clean_reply_extracts_plain_block_witness :
  Common.clean_reply ("```" ++ PyStr.nl ++ "SELECT 2 ;" ++ PyStr.nl ++ "```")
  = Ok "SELECT 2".
Proof.
  exact (clean_reply_extracts_plain_block
    ("```" ++ PyStr.nl ++ "SELECT 2 ;" ++ PyStr.nl ++ "```")
    EmptyString (PyStr.nl ++ "SELECT 2 ;" ++ PyStr.nl) EmptyString
    eq_refl eq_refl eq_refl eq_refl).
Defined.

(** * Further properties of the code *)

Module CleanFacts.
Import PyStr.

Lemma prefix_shorter (a b s : string) :
  prefix (a ++ b) s = true -> prefix a s = true.
Proof.
  revert s. induction a as [|c a IH]; intros s; [now destruct s|].
  destruct s as [|d s]; simpl; [discriminate|].
  destruct (ascii_dec c d); [apply IH | discriminate].
Qed.

Lemma no_fence_no_sql_fence (s : string) :
  contains fence s = false -> contains fence_sql s = false.
Proof.
  induction s as [|c s IH]; [reflexivity|].
  cbn [contains]. intros H. apply orb_false_iff in H. destruct H as [Hp Hc].
  rewrite (IH Hc), orb_false_r.
  destruct (prefix fence_sql (String c s)) eqn:E; [|reflexivity].
  change fence_sql with (fence ++ "sql") in E.
  apply prefix_shorter in E. congruence.
Qed.

End CleanFacts.

(** X4.  A reply without a code fence, with no whitespace before its
    trailing semicolons (stripping what is left of the semicolons on the
    right changes nothing), is returned stripped and without those
    semicolons: the cleaned query ends in no semicolon. *)
Theorem unfenced_reply_loses_its_semicolons :
  forall reply : string,
    PyStr.contains "```" (PyStr.strip reply) = false ->
    PyStr.rstrip (PyStr.rstrip_semicolons (PyStr.strip reply))
    = PyStr.rstrip_semicolons (PyStr.strip reply) ->
    Common.clean_reply reply = Ok (PyStr.rstrip_semicolons (PyStr.strip reply))
    /\ ends_with PyStr.is_semicolon (PyStr.rstrip_semicolons (PyStr.strip reply)) = false.
Proof.
  intros reply Hf Hs. split.
  - unfold Common.clean_reply.
    rewrite (CleanFacts.no_fence_no_sql_fence _ Hf). change PyStr.fence with "```".
    rewrite Hf. cbn [obind]. f_equal.
    unfold PyStr.strip at 1. rewrite Hs.
    apply StrFacts.lstrip_fixed.
    apply StrFacts.rstrip_by_no_leading_space.
    apply StrFacts.lstrip_no_leading_space.
  - apply StrFacts.rstrip_not_ends.
Qed.

(** X4 on a reply with two trailing semicolons and blanks around it. *)
Lemma unfenced_reply_loses_its_semicolons_witness :
  Common.clean_reply "  SELECT * FROM mv_top_bowlers LIMIT 10;;  "
  = Ok "SELECT * FROM mv_top_bowlers LIMIT 10".
Proof.
  exact (proj1 (unfenced_reply_loses_its_semicolons
    "  SELECT * FROM mv_top_bowlers LIMIT 10;;  " eq_refl eq_refl)).
Defined.








Lemma year_of_latest (ql : string) :
  IPLStatsEnhancedChatbot.year_of ql
  = if PyStr.contains "2024" ql then Some 2024%Z
    else if PyStr.contains "2023" ql then Some 2023%Z
    else if PyStr.contains "2022" ql then Some 2022%Z
    else if PyStr.contains "2021" ql then Some 2021%Z
    else None.
Proof.
  unfold IPLStatsEnhancedChatbot.year_of, IPLStatsEnhancedChatbot.known_years.
  cbn [IPLStatsEnhancedChatbot.extract_year].
  destruct (PyStr.contains "2024" ql); [reflexivity|].
  destruct (PyStr.contains "2023" ql); [reflexivity|].
  destruct (PyStr.contains "2022" ql); [reflexivity|].
  destruct (PyStr.contains "2021" ql); reflexivity.
Qed.

(** X6.  For a question that matches none of the four keyword categories,
    the enhanced resolver selects the season template of the latest of the
    years 2024, 2023, 2022, 2021 that the question names, and no template
    when it names none. *)
Theorem season_uses_latest_named_year :
  forall ql : string,
    IPLStatsEnhancedChatbot.is_top_run_scorers ql = false ->
    IPLStatsEnhancedChatbot.is_top_wicket_takers ql = false ->
    IPLStatsEnhancedChatbot.is_death_pace ql = false ->
    IPLStatsEnhancedChatbot.is_death_strike_rate ql = false ->
    IPLStatsEnhancedChatbot.template_of ql
    = latest_season [("2024", 2024); ("2023", 2023); ("2022", 2022); ("2021", 2021)]%Z ql.
Proof.
  intros ql H1 H2 H3 H4.
  unfold IPLStatsEnhancedChatbot.template_of, latest_season.
  rewrite H1, H2, H3, H4, year_of_latest.
  unfold IPLStatsEnhancedChatbot.is_season, PyStr.any_in.
  cbn [existsb find fst snd].
  destruct (PyStr.contains "2024" ql); [reflexivity|].
  destruct (PyStr.contains "2023" ql); [reflexivity|].
  destruct (PyStr.contains "2022" ql); [reflexivity|].
  destruct (PyStr.contains "2021" ql); reflexivity.
Qed.

(** X6 on a question that names two seasons. *)
Lemma season_uses_latest_named_year_witness :
  IPLStatsEnhancedChatbot.template_of (PyStr.lower "Compare 2022 with 2023")
  = Some (IPLStatsEnhancedChatbot.season_query 2023).
Proof.
  exact (season_uses_latest_named_year (PyStr.lower "Compare 2022 with 2023")
           eq_refl eq_refl eq_refl eq_refl).
Defined.



Lemma contains_shorter (a b s : string) :
  PyStr.contains (a ++ b) s = true -> PyStr.contains a s = true.
Proof.
  induction s as [|c s IH]; cbn [PyStr.contains]; intros H.
  - apply orb_true_iff in H. destruct H as [H|H]; [|discriminate].
    apply CleanFacts.prefix_shorter in H. now rewrite H.
  - apply orb_true_iff in H. destruct H as [H|H].
    + apply CleanFacts.prefix_shorter in H. now rewrite H.
    + rewrite (IH H). apply orb_true_r.
Qed.

(** X7.  A question about top run scorers (no death, pace, bowling, and not
    a top-wickets question) gets the season leaderboard of the latest of
    2024, 2023, 2022 it names; when it names none of these it gets the
    all-time leaderboard, also when it names 2021, which the first test does
    not exclude. *)
Theorem top_run_question_with_a_year :
  forall ql : string,
    PyStr.any_in ["top"; "best"; "highest"] ql = true ->
    PyStr.any_in ["run"; "scorer"; "batsman"; "batter"] ql = true ->
    PyStr.any_in ["death"; "pace"; "bowling"] ql = false ->
    IPLStatsEnhancedChatbot.is_top_wicket_takers ql = false ->
    IPLStatsEnhancedChatbot.template_of ql
    = if PyStr.contains "2024" ql then Some (IPLStatsEnhancedChatbot.season_query 2024)
      else if PyStr.contains "2023" ql then Some (IPLStatsEnhancedChatbot.season_query 2023)
      else if PyStr.contains "2022" ql then Some (IPLStatsEnhancedChatbot.season_query 2022)
      else Some IPLStatsEnhancedChatbot.top_run_scorers_query.
Proof.
  intros ql Htop Hrun Hnone Hw.
  unfold PyStr.any_in in Hnone. cbn [existsb] in Hnone.
  rewrite orb_false_r in Hnone.
  apply orb_false_iff in Hnone. destruct Hnone as [Hd Hnone].
  apply orb_false_iff in Hnone. destruct Hnone as [Hp Hb].
  assert (Hdo : PyStr.contains "death over" ql = false).
  { destruct (PyStr.contains "death over" ql) eqn:E; [|reflexivity].
    change "death over" with ("death" ++ " over") in E.
    apply contains_shorter in E. congruence. }
  unfold IPLStatsEnhancedChatbot.template_of, IPLStatsEnhancedChatbot.is_top_run_scorers,
    IPLStatsEnhancedChatbot.is_death_pace, IPLStatsEnhancedChatbot.is_death_strike_rate.
  rewrite Htop, Hrun, Hw, year_of_latest.
  unfold IPLStatsEnhancedChatbot.is_season, PyStr.any_in.
  cbn [existsb]. rewrite Hd, Hp, Hb, Hdo, !andb_false_r.
  destruct (PyStr.contains "2024" ql), (PyStr.contains "2023" ql),
    (PyStr.contains "2022" ql), (PyStr.contains "2021" ql); reflexivity.
Qed.

(** X7 on the same question for 2021 and for 2022. *)
Lemma top_run_question_with_a_year_witness :
  IPLStatsEnhancedChatbot.template_of (PyStr.lower "Top run scorers in 2021")
  = Some IPLStatsEnhancedChatbot.top_run_scorers_query
  /\ IPLStatsEnhancedChatbot.template_of (PyStr.lower "Top run scorers in 2022")
     = Some (IPLStatsEnhancedChatbot.season_query 2022).
Proof.
  split.
  - exact (top_run_question_with_a_year (PyStr.lower "Top run scorers in 2021")
             eq_refl eq_refl eq_refl eq_refl).
  - exact (top_run_question_with_a_year (PyStr.lower "Top run scorers in 2022")
             eq_refl eq_refl eq_refl eq_refl).
Defined.

Lemma for_enumerate_ext {R : Type} (f g : nat -> R -> string -> outcome string)
    (rows : list R) :
  forall (i : nat) (formatted : string),
    (forall k row text, In row rows -> f k row text = g k row text) ->
    Common.for_enumerate f i rows formatted = Common.for_enumerate g i rows formatted.
Proof.
  induction rows as [|row rows IH]; intros i formatted H; [reflexivity|].
  cbn [Common.for_enumerate]. rewrite (H i row formatted (or_introl eq_refl)).
  destruct (g i row formatted) as [text|e]; [|reflexivity].
  cbn [obind]. apply IH. intros k r t Hin. apply H. now right.
Qed.


(** X8.  The formatter of the enhanced class ignores the question: the text
    depends on the result only.  The formatter of the baseline reads the
    question only to label a statistic it does not know: for a table with
    one of the columns total_runs, runs, wickets, death_runs, strike_rate,
    death_sr the text is the same for every question. *)
Theorem formatted_text_ignores_the_question :
  forall (rt : Runtime) (result : option DataFrame) (q1 q2 : string),
    IPLStatsEnhancedChatbot._format_result rt result q1
    = IPLStatsEnhancedChatbot._format_result rt result q2
    /\ (forall df, result = Some df -> has_known_statistic df = true ->
        IPLStatsPostgresChatbot._format_result rt result q1
        = IPLStatsPostgresChatbot._format_result rt result q2).
Proof.
  intros rt result q1 q2. split; [reflexivity|].
  intros df -> Hk. unfold IPLStatsPostgresChatbot._format_result.
  destruct (Frame.len df =? 0)%nat; [reflexivity|].
  cbv zeta. f_equal.
  unfold IPLStatsPostgresChatbot._format_dataframe. cbv zeta. f_equal.
  set (m1 := if PyStr.any_in _ (str_lower rt q1) then _ else _).
  set (m2 := if PyStr.any_in _ (str_lower rt q2) then _ else _).
  rewrite (for_enumerate_ext (IPLStatsPostgresChatbot.format_row rt df m1)
             (IPLStatsPostgresChatbot.format_row rt df m2)); [reflexivity|].
  intros k row text _. unfold IPLStatsPostgresChatbot.format_row.
  assert (Hm : IPLStatsPostgresChatbot.main_statistic df row m1
               = IPLStatsPostgresChatbot.main_statistic df row m2).
  { unfold IPLStatsPostgresChatbot.main_statistic, has_known_statistic in *.
    destruct (Frame.has_column "total_runs" df); [reflexivity|].
    destruct (Frame.has_column "runs" df); [reflexivity|].
    destruct (Frame.has_column "wickets" df); [reflexivity|].
    destruct (Frame.has_column "death_runs" df); [reflexivity|].
    cbn [orb] in Hk. now rewrite Hk. }
  now rewrite Hm.
Qed.

(** X8 on the table of V Kohli. *)
Lemma formatted_text_ignores_the_question_witness :
  IPLStatsPostgresChatbot._format_result Samples.runtime (Some Samples.kohli)
    "top wicket takers"
  = IPLStatsPostgresChatbot._format_result Samples.runtime (Some Samples.kohli)
      "strike rate please".
Proof.
  exact (proj2 (formatted_text_ignores_the_question Samples.runtime (Some Samples.kohli)
                  "top wicket takers" "strike rate please")
           Samples.kohli eq_refl eq_refl).
Defined.

(** X9.  Two questions for which the enhanced resolver selects the same
    template (or none) get the same answer and execute the same statement,
    also with the output of the resolver and whatever the console does. *)
Theorem enhanced_answer_depends_on_the_template :
  forall (rt : Runtime) (w : World) (q1 q2 : string) (log : Log),
    IPLStatsEnhancedChatbot.template_of (str_lower rt q1)
    = IPLStatsEnhancedChatbot.template_of (str_lower rt q2) ->
    IPLStatsEnhancedChatbot._try_enhanced_fallback_queries rt w q1 log
    = IPLStatsEnhancedChatbot._try_enhanced_fallback_queries rt w q2 log
    /\ IPLStatsEnhancedChatbotIO._try_enhanced_fallback_queries rt w q1 log
       = IPLStatsEnhancedChatbotIO._try_enhanced_fallback_queries rt w q2 log.
Proof.
  intros rt w q1 q2 log H. split.
  - rewrite !enhanced_fallback_selects, H.
    destruct (IPLStatsEnhancedChatbot.template_of (str_lower rt q2)); [|reflexivity].
    rewrite !enhanced_run_template. reflexivity.
  - rewrite !enhanced_io_fallback_selects, H. reflexivity.
Qed.

(** X9 on two wordings of the batting leaderboard. *)
Lemma enhanced_answer_depends_on_the_template_witness :
  IPLStatsEnhancedChatbot._try_enhanced_fallback_queries Samples.runtime
    (Samples.db_empty "SELECT 1") "Best batter ever" []
  = IPLStatsEnhancedChatbot._try_enhanced_fallback_queries Samples.runtime
      (Samples.db_empty "SELECT 1") "TOP RUN SCORERS" [].
Proof.
  exact (proj1 (enhanced_answer_depends_on_the_template Samples.runtime
                  (Samples.db_empty "SELECT 1") "Best batter ever" "TOP RUN SCORERS" []
                  eq_refl)).
Defined.





Lemma append_nil_r (s : string) : s ++ EmptyString = s.
Proof.
  induction s; simpl; congruence.
Qed.

Lemma for_enumerate_lines {R : Type} (P : nat -> string -> Prop)
    (body : nat -> R -> string -> outcome string) (rows : list R) :
  (forall k row text t, body k row text = Ok t -> exists line, t = text ++ line /\ P k line) ->
  forall (i : nat) (formatted text : string),
    Common.for_enumerate body i rows formatted = Ok text ->
    exists lines,
      List.length lines = List.length rows
      /\ text = formatted ++ join lines
      /\ (forall k line, nth_error lines k = Some line -> P (i + k) line).
Proof.
  intros Hbody. induction rows as [|row rows IH]; intros i formatted text H.
  - cbn [Common.for_enumerate] in H. injection H as <-. exists [].
    repeat split; [now rewrite append_nil_r | intros [|k] line; discriminate].
  - cbn [Common.for_enumerate] in H.
    destruct (body i row formatted) as [t|e] eqn:Hb; [|discriminate].
    cbn [obind] in H.
    destruct (Hbody _ _ _ _ Hb) as (line & -> & Hline).
    destruct (IH _ _ _ H) as (lines & Hlen & -> & Hall).
    exists (line :: lines). repeat split.
    + cbn [List.length]. now rewrite Hlen.
    + cbn [join fold_right]. now rewrite StrFacts.append_assoc.
    + intros [|k] l Hk; cbn [nth_error] in Hk.
      * injection Hk as <-. now rewrite Nat.add_0_r.
      * rewrite Nat.add_succ_r. apply (Hall k l Hk).
Qed.

Ltac step_outcome H :=
  match type of H with
  | obind ?m _ = Ok _ =>
      let E := fresh "E" in
      destruct m eqn:E; cbn [obind] in H; [|discriminate]
  end.

Lemma enhanced_row_line (rt : Runtime) (df : DataFrame) (k : nat) (row : Series)
    (text t : string) :
  IPLStatsEnhancedChatbot.format_row rt df k row text = Ok t ->
  exists line,
    t = text ++ line
    /\ exists name stats,
         line = enhanced_marker k ++ " **" ++ name ++ "** - " ++ stats ++ PyStr.nl.
Proof.
  unfold IPLStatsEnhancedChatbot.format_row. intros H. cbv zeta in H.
  repeat step_outcome H.
  injection H as <-. eexists. split; [reflexivity|].
  eexists. eexists. reflexivity.
Qed.

(** X11.  The text of [_format_enhanced_dataframe] is either the formatting
    error message, or the header, one line for each of the first 12 rows,
    and the note on the rows left out when there are more.  Line k starts
    with the marker of rank k: the three medals, then the number in bold. *)
Theorem enhanced_answer_shape :
  forall (rt : Runtime) (df : DataFrame) (question_lower : string),
    (exists e,
        IPLStatsEnhancedChatbot._format_enhanced_dataframe rt df question_lower
        = Ok ("Error formatting results: " ++ exn_str rt e))
    \/ (exists lines,
           List.length lines = Nat.min 12 (Frame.len df)
           /\ IPLStatsEnhancedChatbot._format_enhanced_dataframe rt df question_lower
              = Ok ("🏏 **Cricket Analytics Results:**" ++ PyStr.nl ++ PyStr.nl
                    ++ join lines ++ more_results 12 df)
           /\ (forall k line,
                  nth_error lines k = Some line ->
                  exists name stats,
                    line = enhanced_marker (S k) ++ " **" ++ name ++ "** - " ++ stats
                           ++ PyStr.nl)).
Proof.
  intros rt df ql. unfold IPLStatsEnhancedChatbot._format_enhanced_dataframe. cbv zeta.
  destruct (Common.for_enumerate (IPLStatsEnhancedChatbot.format_row rt df) 1
              (Frame.iterrows (Frame.head 12 df)) _) as [text|e] eqn:Hloop.
  - right.
    destruct (for_enumerate_lines
                (fun k line => exists name stats,
                     line = enhanced_marker k ++ " **" ++ name ++ "** - " ++ stats
                            ++ PyStr.nl)
                _ _ (enhanced_row_line rt df) _ _ _ Hloop) as (lines & Hlen & -> & Hall).
    exists lines. split; [|split].
    + rewrite Hlen. unfold Frame.iterrows, Frame.head, Frame.len. cbn [records columns].
      now rewrite length_map, length_firstn.
    + cbn [obind try_pure]. unfold more_results.
      destruct (12 <? Frame.len df)%nat; cbn [try_pure].
      * apply f_equal. now rewrite !StrFacts.append_assoc.
      * apply f_equal. now rewrite !StrFacts.append_assoc, append_nil_r.
    + intros k line Hk. exact (Hall k line Hk).
  - left. exists e. reflexivity.
Qed.

Lemma baseline_row_line (rt : Runtime) (df : DataFrame) (metric : string) (k : nat)
    (row : Series) (text t : string) :
  IPLStatsPostgresChatbot.format_row rt df metric k row text = Ok t ->
  exists line,
    t = text ++ line
    /\ exists name statistic,
         line = baseline_marker k ++ " **" ++ name ++ "**" ++ statistic ++ PyStr.nl.
Proof.
  unfold IPLStatsPostgresChatbot.format_row. intros H. cbv zeta in H.
  repeat step_outcome H.
  match type of H with
  | context [let (_, _) := ?p in _] => destruct p as [main_stat stat_name]
  end.
  assert (Hshown : forall name shown,
             obind (IPLStatsPostgresChatbot.value_text rt main_stat stat_name) shown = Ok t ->
             (forall value_str,
                 shown value_str
                 = Ok (text ++ baseline_marker k ++ " **" ++ name ++ "** - "
                         ++ value_str ++ " " ++ stat_name ++ PyStr.nl)) ->
             exists line,
               t = text ++ line
               /\ exists name statistic,
                    line = baseline_marker k ++ " **" ++ name ++ "**" ++ statistic
                           ++ PyStr.nl).
  { intros name shown Hs Hshape.
    destruct (IPLStatsPostgresChatbot.value_text rt main_stat stat_name) as [vs|];
      [|discriminate].
    cbn [obind] in Hs. rewrite Hshape in Hs. injection Hs as <-.
    eexists. split; [reflexivity|].
    exists name, (" - " ++ vs ++ " " ++ stat_name).
    rewrite !StrFacts.append_assoc. reflexivity. }
  destruct main_stat as [|b|z|f|sv].
  - injection H as <-. eexists. split; [reflexivity|].
    eexists. exists EmptyString. reflexivity.
  - exact (Hshown _ _ H (fun _ => eq_refl)).
  - exact (Hshown _ _ H (fun _ => eq_refl)).
  - exact (Hshown _ _ H (fun _ => eq_refl)).
  - exact (Hshown _ _ H (fun _ => eq_refl)).
Qed.

(** X12.  The text of [_format_dataframe] of the baseline is either the
    formatting error message, or the header with the number of rows shown,
    one line for each of the first 15 rows, and the note on the rows left
    out.  Line k starts with the marker of rank k. *)
Theorem baseline_answer_shape :
  forall (rt : Runtime) (df : DataFrame) (question_lower : string),
    (exists e,
        IPLStatsPostgresChatbot._format_dataframe rt df question_lower
        = Ok ("Error formatting results: " ++ exn_str rt e))
    \/ (exists lines,
           List.length lines = Nat.min 15 (Frame.len df)
           /\ IPLStatsPostgresChatbot._format_dataframe rt df question_lower
              = Ok ("🏏 **Top " ++ PyFmt.digits (N.of_nat (Nat.min (Frame.len df) 15))
                    ++ " Results:**" ++ PyStr.nl ++ PyStr.nl
                    ++ join lines ++ more_results 15 df)
           /\ (forall k line,
                  nth_error lines k = Some line ->
                  exists name statistic,
                    line = baseline_marker (S k) ++ " **" ++ name ++ "**" ++ statistic
                           ++ PyStr.nl)).
Proof.
  intros rt df ql. unfold IPLStatsPostgresChatbot._format_dataframe. cbv zeta.
  match goal with
  | |- context [Common.for_enumerate ?b 1 ?rows ?acc] =>
      destruct (Common.for_enumerate b 1 rows acc) as [text|e] eqn:Hloop
  end.
  - right.
    destruct (for_enumerate_lines
                (fun k line => exists name statistic,
                     line = baseline_marker k ++ " **" ++ name ++ "**" ++ statistic
                            ++ PyStr.nl)
                _ _ (baseline_row_line rt df _) _ _ _ Hloop) as (lines & Hlen & -> & Hall).
    exists lines. split; [|split].
    + rewrite Hlen. unfold Frame.iterrows, Frame.head, Frame.len. cbn [records columns].
      now rewrite length_map, length_firstn.
    + cbn [obind try_pure]. unfold more_results.
      destruct (15 <? Frame.len df)%nat; cbn [try_pure].
      * apply f_equal. now rewrite !StrFacts.append_assoc.
      * apply f_equal. now rewrite !StrFacts.append_assoc, append_nil_r.
    + intros k line Hk. exact (Hall k line Hk).
  - left. exists e. reflexivity.
Qed.

(** * The callers of [ask] and the refresh of the views *)

(** X13.  A request to [/ask] whose body is a JSON object with a string
    under "question" that is not blank once stripped is passed to [ask] of
    the enhanced class, stripped.  When the console accepts what [ask]
    prints, the response has status 200, echoes the stripped question, and
    its answer is what [ask] returns, a string and never [null].  When the
    first [print] of [ask] raises, the endpoint catches the exception and
    answers with status 500 and the text of the exception; nothing was
    executed. *)
Theorem ask_endpoint_answers_the_stripped_question :
  forall (rt : Runtime) (w : World) (request : outcome AppPostgres.json)
         (question : string) (log : Log),
    question_of request = Some question ->
    ((forall text : string, print w text = Ok tt) ->
     AppPostgres.ask_question rt (Some w) request log
     = (Ok (AppPostgres.jsonify
              [ ("question", AppPostgres.JString question);
                ("answer", AppPostgres.JString (enhanced_reply rt w question log)) ] 200),
        snd (IPLStatsEnhancedChatbot.ask rt w question log)))
    /\ (forall e : exn,
           print w (PyStr.nl ++ "Question: " ++ question) = Raise e ->
           AppPostgres.ask_question rt (Some w) request log
           = (Ok (AppPostgres.jsonify
                    [ ("error",
                       AppPostgres.JString ("Error processing question: " ++ exn_str rt e)) ]
                    500),
              log)).
Proof.
  intros rt w request question log Hq.
  unfold question_of in Hq.
  destruct request as [[| | | | |items|members]|e]; try discriminate.
  destruct (AppPostgres.member "question" members) as [[| | | |text| |]|] eqn:Hm;
    try discriminate.
  destruct (PyStr.is_empty (PyStr.strip text)) eqn:He; [discriminate|].
  injection Hq as <-.
  unfold AppPostgres.ask_question, try_catch, bind, lift, AppPostgres.dict_get.
  rewrite Hm. cbn [AppPostgres.str_strip]. rewrite He.
  split.
  - intros Hacc. rewrite (enhanced_ask_accepted rt w Hacc), enhanced_ask_reply. reflexivity.
  - intros e Hp.
    destruct (ask_raises_on_the_question_line rt w (PyStr.strip text) log e Hp) as [_ ->].
    reflexivity.
Qed.

(** X13 on a question with blanks and a no-break space around it, and on a
    question that is one lone surrogate. *)
Lemma ask_endpoint_answers_the_stripped_question_witness :
  fst (AppPostgres.ask_question Samples.runtime (Some (Samples.db_empty "SELECT 1"))
         (Ok (AppPostgres.JObject
                [("question",
                  AppPostgres.JString ("  Top run scorers " ++ Samples.no_break_space))]))
         [])
  = Ok (AppPostgres.jsonify
          [ ("question", AppPostgres.JString "Top run scorers");
            ("answer", AppPostgres.JString Common.no_data_found) ] 200)
  /\ AppPostgres.ask_question Samples.runtime
       (Some (Samples.utf8_console (Samples.db_empty "SELECT 1")))
       (Ok (AppPostgres.JObject [("question", AppPostgres.JString Samples.lone_surrogate)]))
       []
     = (Ok (AppPostgres.jsonify
              [ ("error", AppPostgres.JString "Error processing question: error") ] 500),
        []).
Proof.
  split.
  - exact (f_equal fst
             (proj1 (ask_endpoint_answers_the_stripped_question Samples.runtime
                       (Samples.db_empty "SELECT 1")
                       (Ok (AppPostgres.JObject
                              [("question",
                                AppPostgres.JString
                                  ("  Top run scorers " ++ Samples.no_break_space))]))
                       "Top run scorers" [] eq_refl)
                (fun _ => eq_refl))).
  - exact (proj2 (ask_endpoint_answers_the_stripped_question Samples.runtime
                    (Samples.utf8_console (Samples.db_empty "SELECT 1"))
                    (Ok (AppPostgres.JObject
                           [("question", AppPostgres.JString Samples.lone_surrogate)]))
                    Samples.lone_surrogate [] eq_refl)
             UnicodeEncodeError eq_refl).
Defined.

(** X14.  Every other request to [/ask] of an initialised application is
    turned down without asking: the response is the same for every
    behaviour of the LLM and of the database, and nothing is executed.  The
    status is 400 when the body is a JSON object whose "question" is missing
    or a blank string, and 500 otherwise (a body that is no JSON object, a
    "question" that is no string, a body Flask fails to parse). *)
Theorem ask_endpoint_turns_down_without_asking :
  forall (rt : Runtime) (request : outcome AppPostgres.json) (log : Log),
    question_of request = None ->
    exists response,
      (forall w : World,
          AppPostgres.ask_question rt (Some w) request log = (Ok response, log))
      /\ AppPostgres.status response = (if blank_question request then 400 else 500)%nat.
Proof.
  intros rt request log Hq.
  unfold question_of in Hq. unfold blank_question.
  unfold AppPostgres.ask_question, try_catch, bind, lift, AppPostgres.dict_get.
  destruct request as [[| | | | |items|members]|e];
    try (eexists; split; [intros w; reflexivity | reflexivity]).
  destruct (AppPostgres.member "question" members) as [[| | | |text| |]|];
    try (eexists; split; [intros w; reflexivity | reflexivity]).
  cbn [AppPostgres.str_strip].
  destruct (PyStr.is_empty (PyStr.strip text)); [|discriminate].
  eexists; split; [intros w; reflexivity | reflexivity].
Qed.

(** X14 on a body whose question is [null], and on a body without one. *)
Lemma ask_endpoint_turns_down_without_asking_witness :
  (exists response,
      (forall w : World,
          AppPostgres.ask_question Samples.runtime (Some w)
            (Ok (AppPostgres.JObject [("question", AppPostgres.JNull)])) []
          = (Ok response, []))
      /\ AppPostgres.status response = 500%nat)
  /\ (exists response,
         (forall w : World,
             AppPostgres.ask_question Samples.runtime (Some w)
               (Ok (AppPostgres.JObject [])) []
             = (Ok response, []))
         /\ AppPostgres.status response = 400%nat).
Proof.
  split.
  - exact (ask_endpoint_turns_down_without_asking Samples.runtime
             (Ok (AppPostgres.JObject [("question", AppPostgres.JNull)])) [] eq_refl).
  - exact (ask_endpoint_turns_down_without_asking Samples.runtime
             (Ok (AppPostgres.JObject [])) [] eq_refl).
Defined.

Ltac refresh_cases :=
  repeat match goal with
         | |- context [match ?x with Ok _ => _ | Raise _ => _ end] =>
             lazymatch x with
             | context [match _ with _ => _ end] => fail
             | _ => let E := fresh "E" in destruct x as [[]|?] eqn:E
             end
         end.

Lemma baseline_refresh_returns (engine : Db.Engine) (trace : Db.Trace) :
  fst (PostgresViews.refresh_materialized_views engine trace) = Ok tt.
Proof.
  unfold PostgresViews.refresh_materialized_views, Db.try_catch, Db.with_connection,
    Db.bind, Db.conn_execute, Db.conn_commit, Db.ret.
  refresh_cases; reflexivity.
Qed.




Lemma chat_loop_runs (rt : Runtime) (w : World)
    (replies : nat -> string -> outcome (option string))
    (inputs : list PostgresCli.keyboard) :
  (forall text : string, print w text = Ok tt) ->
  forall (round : nat) (log : Log),
    PostgresCli.chat_loop rt w replies round inputs log
    = (Ok (if existsb (says_goodbye rt) inputs
           then PostgresCli.Returned else PostgresCli.Waiting),
       ask_each rt w replies (questions rt round inputs) log).
Proof.
  intros Hacc.
  induction inputs as [|k inputs IH]; intros round log; [reflexivity|].
  destruct k as [text|e|]; cbn [PostgresCli.chat_loop existsb says_goodbye questions].
  - unfold bind at 1, try_catch.
    destruct (existsb (String.eqb (str_lower rt (PyStr.strip text))) PostgresCli.goodbyes).
    { unfold bind. rewrite (say_accepted w Hacc). reflexivity. }
    cbn [orb]. destruct (PyStr.is_empty (PyStr.strip text)).
    { unfold bind at 1. rewrite (say_accepted w Hacc). unfold ret at 1. apply IH. }
    unfold bind at 1.
    rewrite (baseline_ask_accepted rt (PostgresCli.at_round w (replies round)) Hacc).
    rewrite baseline_ask_reply. unfold ret at 1. rewrite IH.
    unfold ask_each. cbn [fold_left fst snd].
    now rewrite (baseline_ask_accepted rt (PostgresCli.at_round w (replies round)) Hacc).
  - unfold bind at 1. rewrite (say_accepted w Hacc). apply IH.
  - unfold bind. rewrite (say_accepted w Hacc). reflexivity.
Qed.

(** X17.  Let the console accept every text, the two environment variables
    be set and the instance be built.  Then [main] does not raise, and it
    returns exactly when an input line is quit, exit or bye (in any letter
    case, whitespace around it ignored) or the keyboard interrupts; a
    failing [input()], such as the end of the input, and a blank line do
    not end it.  What it executes is what asking the stripped, non-blank
    lines before that input executes, one after the other, each with the
    replies the hosted model gives in its round. *)
Theorem chat_loop_ends_on_goodbye_only :
  forall (rt : Runtime) (w : World) (replies : nat -> string -> outcome (option string))
         (DATABASE_URL GROQ_API_KEY : option string)
         (inputs : list PostgresCli.keyboard) (log : Log),
    (forall text : string, print w text = Ok tt) ->
    truthy DATABASE_URL = true ->
    truthy GROQ_API_KEY = true ->
    PostgresCli.main rt w replies DATABASE_URL GROQ_API_KEY (Ok tt) inputs log
    = (Ok (if existsb (says_goodbye rt) inputs
           then PostgresCli.Returned else PostgresCli.Waiting),
       ask_each rt w replies (questions rt 0 inputs) log).
Proof.
  intros rt w replies db key inputs log Hacc Hdb Hkey.
  unfold PostgresCli.main. rewrite Hdb, Hkey. cbn [negb orb].
  unfold bind, try_catch, lift. rewrite !(say_accepted w Hacc).
  unfold ret at 1. cbv beta iota. rewrite !(say_accepted w Hacc).
  now apply chat_loop_runs.
Qed.

(** X17 on a session that meets the end of its input, then a blank line,
    a question, a goodbye with a no-break space after it, and a line that
    is never read. *)
Lemma chat_loop_ends_on_goodbye_only_witness :
  PostgresCli.main Samples.runtime (Samples.db_down "SELECT 1")
    (fun _ _ => Ok (Some "SELECT 1"))
    (Some "postgresql://localhost/ipl") (Some "key")
    (Ok tt)
    [ PostgresCli.Fails (ExternalError "EOF when reading a line");
      PostgresCli.Line "   ";
      PostgresCli.Line " top wicket takers ";
      PostgresCli.Line ("  QUIT " ++ Samples.no_break_space);
      PostgresCli.Line "top run scorers" ]
    []
  = (Ok PostgresCli.Returned,
     ["SELECT 1"; IPLStatsPostgresChatbot.top_wicket_takers_query]).
Proof.
  exact (chat_loop_ends_on_goodbye_only Samples.runtime (Samples.db_down "SELECT 1")
           (fun _ _ => Ok (Some "SELECT 1"))
           (Some "postgresql://localhost/ipl") (Some "key")
           [ PostgresCli.Fails (ExternalError "EOF when reading a line");
             PostgresCli.Line "   ";
             PostgresCli.Line " top wicket takers ";
             PostgresCli.Line ("  QUIT " ++ Samples.no_break_space);
             PostgresCli.Line "top run scorers" ]
           [] (fun _ => eq_refl) eq_refl eq_refl).
Defined.




Lemma for_enumerate_raises {R : Type} (body : nat -> R -> string -> outcome string)
    (rows : list R) (row : R) :
  In row rows ->
  (forall i text, exists e, body i row text = Raise e) ->
  forall i text, exists e, Common.for_enumerate body i rows text = Raise e.
Proof.
  intros Hin Hrow. induction rows as [|r rows IH]; [destruct Hin|].
  intros i text. cbn [Common.for_enumerate].
  destruct Hin as [->|Hin].
  - destruct (Hrow i text) as [e ->]. now exists e.
  - destruct (body i r text) as [t|e]; [apply (IH Hin) | now exists e].
Qed.

Lemma lookup_first (key : string) (row : Series) (v : value) :
  Frame.lookup key row = Some v -> exists first, Frame.iloc row 0 = Ok first.
Proof.
  destruct row as [|[k x] row]; [discriminate|]. intros _. now exists x.
Qed.

(** X20.  A NULL under total_runs in one of the first 12 rows costs the
    enhanced class the whole ranking: the answer is the message "Error
    formatting results: ..." and no row is shown.  The baseline shows such a
    row with its name and no statistic, and goes on. *)
Theorem null_runs_lose_the_enhanced_ranking :
  forall (rt : Runtime) (df : DataFrame) (question : string) (k : nat)
         (record : list value),
    nth_error (records df) k = Some record ->
    (k < 12)%nat ->
    Frame.has_column "total_runs" df = true ->
    Frame.lookup "total_runs" (combine (columns df) record) = Some VNone ->
    (exists e,
        IPLStatsEnhancedChatbot._format_result rt (Some df) question
        = Ok ("Error formatting results: " ++ exn_str rt e))
    /\ (forall (metric text : string) (i : nat),
           exists name,
             IPLStatsPostgresChatbot.format_row rt df metric i
               (combine (columns df) record) text
             = Ok (text ++ baseline_marker i ++ " **" ++ name ++ "**" ++ PyStr.nl)).
Proof.
  intros rt df question k record Hk Hlt Hcol Hnull.
  destruct (lookup_first _ _ _ Hnull) as [first Hfirst].
  split.
  - unfold IPLStatsEnhancedChatbot._format_result.
    assert (Hlen : (Frame.len df =? 0)%nat = false).
    { apply Nat.eqb_neq. unfold Frame.len. intros H0.
      apply length_zero_iff_nil in H0. rewrite H0 in Hk. now destruct k. }
    rewrite Hlen. cbv zeta.
    unfold IPLStatsEnhancedChatbot._format_enhanced_dataframe. cbv zeta.
    assert (Hin : In (combine (columns df) record) (Frame.iterrows (Frame.head 12 df))).
    { unfold Frame.iterrows, Frame.head. cbn [records columns].
      apply in_map. apply (nth_error_In _ k).
      rewrite nth_error_firstn.
      destruct (Nat.ltb_spec k 12) as [_|Hge]; [exact Hk | lia]. }
    destruct (for_enumerate_raises (IPLStatsEnhancedChatbot.format_row rt df) _ _ Hin)
      with (i := 1%nat)
           (text := "🏏 **Cricket Analytics Results:**" ++ PyStr.nl ++ PyStr.nl)
      as [e He].
    { intros i text. unfold IPLStatsEnhancedChatbot.format_row. cbv zeta.
      rewrite Hfirst. cbn [obind].
      unfold IPLStatsEnhancedChatbot.runs_part. rewrite Hcol.
      unfold IPLStatsEnhancedChatbot.append_if, IPLStatsEnhancedChatbot.count_bold,
        Frame.getitem.
      rewrite Hnull. cbn [obind PyFmt.fmt_comma]. now exists TypeError. }
    rewrite He. cbn [obind try_pure]. now exists e.
  - intros metric text i. unfold IPLStatsPostgresChatbot.format_row. cbv zeta.
    rewrite Hfirst. cbn [obind].
    unfold IPLStatsPostgresChatbot.main_statistic. rewrite Hcol.
    unfold Frame.getitem. rewrite Hnull. cbn [obind]. eexists. reflexivity.
Qed.

(** X20 on a table whose second row has no runs. *)
Lemma null_runs_lose_the_enhanced_ranking_witness :
  exists e,
    IPLStatsEnhancedChatbot._format_result Samples.runtime
      (Some {| columns := ["batter"; "total_runs"];
               number_columns := ["total_runs"];
               records := [[VStr "V Kohli"; VInt 1250]; [VStr "MS Dhoni"; VNone]] |})
      "top run scorers"
    = Ok ("Error formatting results: " ++ exn_str Samples.runtime e).
Proof.
  exact (proj1 (null_runs_lose_the_enhanced_ranking Samples.runtime
                  {| columns := ["batter"; "total_runs"];
                     number_columns := ["total_runs"];
                     records := [[VStr "V Kohli"; VInt 1250]; [VStr "MS Dhoni"; VNone]] |}
                  "top run scorers" 1 [VStr "MS Dhoni"; VNone]
                  eq_refl (proj1 (Nat.leb_le 2 12) eq_refl) eq_refl eq_refl)).
Defined.
